(** * HoudiniGeoIOSchema: the schema exporter of [geoschema.py]

    A shallow embedding of the exporter ([export_geo_schema] and its helpers)
    and the properties of it that the specification states.

    Conventions of the embedding.
    - A Python [str] is a [string]; its characters are the code points
      0..255.
    - A Python [int] is a [Z].
    - A [pathlib.Path] is the list of its components, outermost first; every
      operand of [/] is taken to be one relative component.
    - The file system is a set of directories and a finite map from paths
      to file contents; [open] and [mkdir] always succeed on it (full disks,
      permissions and the like are outside the model).
    - An exception is an [Err] result; the file system reached when it is
      raised is kept, as Python keeps it.
    - numpy's conversion of an element to a 32-bit dtype is not modelled: an
      array holds its elements as the provider returned them, and its dtype
      as a tag. *)

From Stdlib Require Import ZArith QArith_base Ascii.
From stdpp Require Import gmap strings list pretty.

Local Open Scope Z_scope.

(** * Part I: the model *)

(** ** Strings *)

Definition nl : string := String "010" "".

(** The double quote. *)
Definition dquote : ascii := "034".

Definition code (c : ascii) : N := N_of_ascii c.

(** [str.isspace] on the code points below 256. *)
Definition is_space (c : ascii) : bool :=
  let n := code c in
  ((9 <=? n) && (n <=? 13) || (28 <=? n) && (n <=? 32)
   || (n =? 133) || (n =? 160))%N.

(** The line boundaries of [str.splitlines] below 256, but for the pair
    CR LF, which [splitlines] below treats as one boundary. *)
Definition is_linebreak (c : ascii) : bool :=
  let n := code c in
  ((10 <=? n) && (n <=? 13) || (28 <=? n) && (n <=? 30) || (n =? 133))%N.

Definition starts_with_lf (s : string) : bool :=
  match s with
  | String c _ => (code c =? 10)%N
  | EmptyString => false
  end.

(** [str.splitlines()]: the lines without their terminators; a terminator at
    the very end opens no further line. *)
Fixpoint splitlines (s : string) : list string :=
  match s with
  | EmptyString => []
  | String c s' =>
      if is_linebreak c then
        if (code c =? 13)%N && starts_with_lf s' then splitlines s'
        else "" :: splitlines s'
      else
        match splitlines s' with
        | [] => [String c ""]
        | l :: ls => String c l :: ls
        end
  end.

(** [str.rstrip()] and [str.lstrip()] with no argument. *)
Fixpoint rstrip (s : string) : string :=
  match s with
  | EmptyString => ""
  | String c s' =>
      match rstrip s' with
      | EmptyString => if is_space c then "" else String c ""
      | r => String c r
      end
  end.

Fixpoint lstrip (s : string) : string :=
  match s with
  | EmptyString => ""
  | String c s' => if is_space c then lstrip s' else s
  end.

(** [s.endswith(suf)]. *)
Definition endswith (s suf : string) : bool :=
  let n := String.length s in
  let m := String.length suf in
  (m <=? n)%nat && bool_decide (String.substring (n - m) m s = suf).

(** The slices [s[:n]] and [s[:-n]]. *)
Definition slice_to (n : nat) (s : string) : string := String.substring 0 n s.

Definition drop_last (n : nat) (s : string) : string :=
  String.substring 0 (String.length s - n) s.

(** [sep.join(l)]. *)
Definition join (sep : string) (l : list string) : string :=
  String.concat sep l.

(** [str.lower()] on the code points below 256: the ASCII capitals and the
    Latin-1 capitals (0xC0..0xDE but for the multiplication sign 0xD7). *)
Definition lower_char (c : ascii) : ascii :=
  let n := code c in
  if ((65 <=? n) && (n <=? 90)
      || (192 <=? n) && (n <=? 222) && negb (n =? 215))%N
  then ascii_of_N (n + 32) else c.

Fixpoint lower (s : string) : string :=
  match s with
  | EmptyString => ""
  | String c s' => String (lower_char c) (lower s')
  end.

(** ** Topology: run-length encoding of the per-primitive vertex counts *)

(** The loop state of [_rle_encode_int]: [out], [current], [run]. *)
Definition rle_state : Type := list Z * Z * Z.

(** One iteration of [for v in values[1:]]. *)
Definition rle_step (st : rle_state) (v : Z) : rle_state :=
  let '(out, current, run) := st in
  if v =? current then (out, current, run + 1)
  else (out ++ [current; run], v, 1).

Definition _rle_encode_int (values : list Z) : list Z :=
  match values with
  | [] => []
  | v0 :: rest =>
      let '(out, current, run) := fold_left rle_step rest ([], v0, 1) in
      out ++ [current; run]
  end.

(** The reader of the encoding: consecutive (value, runLength) pairs, each
    value repeated runLength times.  The exporter is write-only and has no
    such function; this is the decoder the specification describes. *)
Fixpoint rle_decode (enc : list Z) : list Z :=
  match enc with
  | v :: r :: rest => replicate (Z.to_nat r) v ++ rle_decode rest
  | _ => []
  end.

(** A whole number of (value, runLength) pairs. *)
Inductive paired : list Z → Prop :=
| paired_nil : paired []
| paired_cons v r l : paired l → paired (v :: r :: l).

(** ** The manifest text *)

(** One iteration of the loop of [_format_json_braces]. *)
Definition brace_step (out : list string) (line : string) : list string :=
  let stripped := rstrip line in
  if endswith stripped ": {" then
    let indent :=
      slice_to (String.length line - String.length (lstrip line)) line in
    (out ++ [drop_last 2 stripped]) ++ [indent +:+ "{"]
  else out ++ [line].

Definition _format_json_braces (text : string) : string :=
  join nl (fold_left brace_step (splitlines text) []) +:+ nl.

(** The values [json.dumps] is given by the exporter: strings, integers and
    dicts with string keys, in insertion order. *)
Local Unset Elimination Schemes.
Inductive json : Type :=
| JStr (s : string)
| JInt (z : Z)
| JObj (fields : list (string * json)).
Local Set Elimination Schemes.

Definition hex_digit (n : N) : ascii :=
  ascii_of_N (if (n <? 10)%N then 48 + n else 87 + n).

(** The escape of one character by [json.dumps] (with [ensure_ascii]). *)
Definition json_escape_char (c : ascii) : string :=
  let n := code c in
  if (n =? 34)%N then String "\" (String dquote "")
  else if (n =? 92)%N then "\\"
  else if (n =? 10)%N then "\n"
  else if (n =? 13)%N then "\r"
  else if (n =? 9)%N then "\t"
  else if (n =? 8)%N then "\b"
  else if (n =? 12)%N then "\f"
  else if ((32 <=? n) && (n <=? 126))%N then String c ""
  else "\u00" +:+ String (hex_digit (n / 16)) (String (hex_digit (n mod 16)) "").

Fixpoint json_escape (s : string) : string :=
  match s with
  | EmptyString => ""
  | String c s' => json_escape_char c +:+ json_escape s'
  end.

Definition json_quote (s : string) : string :=
  String dquote (json_escape s) +:+ String dquote "".

Fixpoint spaces (n : nat) : string :=
  match n with
  | O => ""
  | S n' => String " " (spaces n')
  end.

(** [json.dumps(j, indent=4)] at nesting depth [level]. *)
Fixpoint json_dumps_at (level : nat) (j : json) : string :=
  match j with
  | JStr s => json_quote s
  | JInt z => pretty z
  | JObj [] => "{}"
  | JObj fields =>
      "{" +:+ nl
      +:+ join ("," +:+ nl)
            (map (fun kv : string * json =>
                    spaces (4 * S level) +:+ json_quote (fst kv) +:+ ": "
                    +:+ json_dumps_at (S level) (snd kv)) fields)
      +:+ nl +:+ spaces (4 * level) +:+ "}"
  end.

Definition json_dumps (j : json) : string := json_dumps_at 0 j.

(** ** Paths *)

Definition path : Type := list string.

(** [p / s], for an operand [s] that is one component: a name without
    separator, as the names the exporter appends are when its caller's
    [name] and the attribute names are ([plain_name] below). *)
Definition path_join (p : path) (s : string) : path := p ++ [s].

(** [p.name]: the last component. *)
Definition path_name (p : path) : string := List.last p "".

(** [name.rfind(".")]. *)
Fixpoint rfind_dot (name : string) : option nat :=
  match name with
  | EmptyString => None
  | String c s' =>
      match rfind_dot s' with
      | Some i => Some (S i)
      | None => if (code c =? 46)%N then Some 0%nat else None
      end
  end.

(** [PurePath.suffix] of a file name: what follows the last dot, the dot
    included, unless that dot is the first or the last character. *)
Definition name_suffix (name : string) : string :=
  match rfind_dot name with
  | Some i =>
      if ((0 <? i) && (i <? String.length name - 1))%nat
      then String.substring i (String.length name - i) name
      else ""
  | None => ""
  end.

(** [p.with_suffix(suffix)]: the suffix of the last component is replaced by
    [suffix], which is appended when that component has none.  (On a path
    with no name pathlib raises; the exporter's paths all have one.) *)
Definition with_suffix (p : path) (suffix : string) : path :=
  match p with
  | [] => []
  | _ =>
      let name := path_name p in
      removelast p
      ++ [drop_last (String.length (name_suffix name)) name +:+ suffix]
  end.

(** [p] and the directories above it: what [mkdir(parents=True)] creates. *)
Definition path_and_parents (p : path) : list path :=
  map (fun n => take n p) (seq 1 (length p)).

(** ** The host environment *)

(** [hou.attribData]. *)
Module attribData.
Inductive t : Set := Int | Float | String | Dict.
#[global] Instance eq_dec : EqDecision t.
Proof. solve_decision. Defined.
End attribData.

(** [hou.attribType]. *)
Module attribType.
Inductive t : Set := Point | Vertex | Prim | Global.
End attribType.

(** The ambient state of the host: [hou.frame()], a finite number here,
    [hou.hipFile.path()] and [hou.applicationVersionString()]. *)
Record Hou : Type := {
  hou_frame : Q;
  hipFile_path : string;
  applicationVersionString : string
}.

(** [int(x)] of a finite float: truncation towards zero. *)
Definition int_of_float (x : Q) : Z := Z.quot (Qnum x) (Z.pos (Qden x)).

(** [hou.Attrib]: [name()], [dataType()], [size()]. *)
Record Attrib : Type := {
  attr_name : string;
  attr_dataType : attribData.t;
  attr_size : Z
}.

(** ** Errors *)

(** The failures of the exporter.  The code raises [RuntimeError] with the
    messages "Unsupported format: ...", "ASCII export unsupported ndim=..."
    and "Unsupported attrib type: ..."; the specification calls them
    UnsupportedFormat, UnsupportedRank and UnsupportedAttributeType.
    [ValueError] and [KeyError] are raised by numpy and by dict lookup. *)
Inductive error : Type :=
| UnsupportedFormat (fmt : string)
| UnsupportedRank (ndim : nat)
| UnsupportedAttributeType (t : attribData.t)
| ValueError
| KeyError (key : string).

Inductive result (A : Type) : Type :=
| Ok (a : A)
| Err (e : error).
Arguments Ok {A} a.
Arguments Err {A} e.

Definition is_err {A} (r : result A) : bool :=
  match r with Ok _ => false | Err _ => true end.

(** Insertion-ordered dicts with string keys. *)
Definition dict (V : Type) : Type := list (string * V).

Fixpoint dict_get {V} (k : string) (d : dict V) : option V :=
  match d with
  | [] => None
  | (k', v) :: d' => if decide (k = k') then Some v else dict_get k d'
  end.

(** [d[k] = v]: an existing key keeps its place. *)
Fixpoint dict_set {V} (k : string) (v : V) (d : dict V) : dict V :=
  match d with
  | [] => [(k, v)]
  | (k', v') :: d' =>
      if decide (k = k') then (k, v) :: d' else (k', v') :: dict_set k v d'
  end.

(** [d[k1][k2] = v]. *)
Definition dict_set2 {V} (k1 k2 : string) (v : V) (d : dict (dict V))
  : result (dict (dict V)) :=
  match dict_get k1 d with
  | Some inner => Ok (dict_set k1 (dict_set k2 v inner) d)
  | None => Err (KeyError k1)
  end.

Section Exporter.

(** The floating-point numbers of the host, and the text Python and numpy
    give them and give a tuple: both are library behaviour the exporter
    relies on without fixing it. *)
Variable float : Type.
Variable str_float : float → string.

(** ** Python values and arrays *)

Inductive scalar : Type :=
| SInt (z : Z)
| SFloat (x : float)
| SStr (s : string).

(** What [attribValue] returns: a scalar, or a tuple of scalars for an
    attribute of tuple width above one. *)
Inductive pyval : Type :=
| PScalar (s : scalar)
| PTuple (l : list scalar).

Variable str_tuple : list scalar → string.

(** [str(v)] of an element. *)
Definition str_scalar (s : scalar) : string :=
  match s with
  | SInt z => pretty z
  | SFloat x => str_float x
  | SStr s => s
  end.

Definition str_pyval (v : pyval) : string :=
  match v with
  | PScalar s => str_scalar s
  | PTuple l => str_tuple l
  end.

Inductive dtype : Set := int32 | float32.

(** A numpy array: its dtype ([None] when numpy was left to infer it), its
    shape and its elements in row-major order. *)
Record ndarray : Type := {
  nd_dtype : option dtype;
  nd_shape : list nat;
  nd_data : list scalar
}.

Definition ndim (a : ndarray) : nat := length (nd_shape a).

Definition is_scalar (v : pyval) : bool :=
  match v with PScalar _ => true | PTuple _ => false end.

Definition components (v : pyval) : list scalar :=
  match v with PScalar s => [s] | PTuple l => l end.

Definition is_tuple_of (w : nat) (v : pyval) : bool :=
  match v with
  | PScalar _ => false
  | PTuple l => bool_decide (length l = w)
  end.

(** [np.asarray(values, dtype=dt)] of a list of attribute values: rank 1 for
    scalars (and for the empty list), rank 2 for tuples of one length;
    anything ragged is refused. *)
Definition np_asarray (values : list pyval) (dt : option dtype)
  : result ndarray :=
  match values with
  | [] => Ok {| nd_dtype := dt; nd_shape := [0%nat]; nd_data := [] |}
  | PScalar _ :: _ =>
      if forallb is_scalar values then
        Ok {| nd_dtype := dt; nd_shape := [length values];
              nd_data := concat (map components values) |}
      else Err ValueError
  | PTuple l0 :: _ =>
      if forallb (is_tuple_of (length l0)) values then
        Ok {| nd_dtype := dt; nd_shape := [length values; length l0];
              nd_data := concat (map components values) |}
      else Err ValueError
  end.

(** [arr.reshape(n, size)], for [size] above one. *)
Definition np_reshape (arr : ndarray) (n : nat) (size : Z) : result ndarray :=
  if bool_decide (length (nd_data arr) = (n * Z.to_nat size)%nat) then
    Ok {| nd_dtype := nd_dtype arr; nd_shape := [n; Z.to_nat size];
          nd_data := nd_data arr |}
  else Err ValueError.

(** The rows met by [for row in arr] on an array of rank 2. *)
Definition nd_rows (a : ndarray) : list (list scalar) :=
  match nd_shape a with
  | [n; w] => map (fun i => take w (drop (i * w) (nd_data a))) (seq 0 n)
  | _ => []
  end.

(** What [_export_attrib_array] returns and the archive stores: a list of
    strings, or an array. *)
Inductive data : Type :=
| DList (l : list pyval)
| DArray (a : ndarray).

(** ** The file system *)

Inductive content : Type :=
| TextFile (text : string)
| NpyFile (a : ndarray)
| PickleArray (a : ndarray)
| PickleObject (single_obj : dict (dict data)) (metadata : json).

Record FS : Type := {
  fs_dirs : gset path;
  fs_files : gmap path content
}.

(** Computations that may raise and that act on the file system. *)
Definition io (A : Type) : Type := FS → result A * FS.

Definition raise {A} (e : error) : io A := fun fs => (Err e, fs).

Definition lift {A} (r : result A) : io A := fun fs => (r, fs).

#[export] Instance io_ret : MRet io := fun A a fs => (Ok a, fs).

#[export] Instance io_bind : MBind io := fun A B f m fs =>
  match m fs with
  | (Ok a, fs') => f a fs'
  | (Err e, fs') => (Err e, fs')
  end.

(** [for x in l: st = f(st, x)]. *)
Fixpoint for_each {A S} (f : S → A → io S) (l : list A) (st : S) : io S :=
  match l with
  | [] => mret st
  | x :: l' => st' ← f st x; for_each f l' st'
  end.

Definition fs_mkdir (fs : FS) (p : path) : FS :=
  {| fs_dirs := fs_dirs fs ∪ list_to_set (path_and_parents p);
     fs_files := fs_files fs |}.

Definition fs_write (fs : FS) (p : path) (c : content) : FS :=
  {| fs_dirs := fs_dirs fs; fs_files := <[p := c]> (fs_files fs) |}.

(** [p.mkdir(parents=True, exist_ok=True)]. *)
Definition _ensure_dir (p : path) : io unit :=
  fun fs => (Ok (), fs_mkdir fs p).

(** [open(p, "w")] followed by writes that amount to [c], and the close. *)
Definition write_file (p : path) (c : content) : io unit :=
  fun fs => (Ok (), fs_write fs p c).

(** ** Serializers *)

Definition text_lines (l : list string) : string :=
  String.concat "" (map (fun s => s +:+ nl) l).

Definition _save_ascii (p : path) (arr : option ndarray) : io unit :=
  match arr with
  | None => mret ()
  | Some a =>
      if bool_decide (ndim a = 1%nat) then
        write_file p (TextFile (text_lines (map str_scalar (nd_data a))))
      else if bool_decide (ndim a = 2%nat) then
        write_file p
          (TextFile
             (text_lines (map (fun row => join " " (map str_scalar row))
                            (nd_rows a))))
      else
        write_file p (TextFile "");; raise (UnsupportedRank (ndim a))
  end.

Definition _save_array (path_base : path) (arr : option ndarray) (fmt : string)
  : io unit :=
  match arr with
  | None => mret ()
  | Some a =>
      if bool_decide (fmt = "ascii") then
        _save_ascii (with_suffix path_base ".txt") arr
      else if bool_decide (fmt = "npy") || bool_decide (fmt = "binary") then
        write_file (with_suffix path_base ".npy") (NpyFile a)
      else if bool_decide (fmt = "pickle") then
        write_file (with_suffix path_base ".pkl") (PickleArray a)
      else raise (UnsupportedFormat fmt)
  end.

(** ** The geometry provider *)

(** An element is seen through [attribValue(name)] alone. *)
Definition Elem : Type := string → pyval.

(** [hou.Vertex]: its attribute values and [point().number()]. *)
Record Vertex : Type := {
  vertex_attribValue : Elem;
  vertex_point_number : Z
}.

(** [hou.Prim]: its attribute values and [vertices()]. *)
Record Prim : Type := {
  prim_attribValue : Elem;
  prim_vertices : list Vertex
}.

(** [hou.Geometry]: the four attribute tables, the points and primitives,
    the detail values, and the intrinsic counters. *)
Record Geometry : Type := {
  pointAttribs : list Attrib;
  vertexAttribs : list Attrib;
  primAttribs : list Attrib;
  globalAttribs : list Attrib;
  geo_points : list Elem;
  geo_prims : list Prim;
  geo_attribValue : Elem;
  intrinsic_pointcount : Z;
  intrinsic_primitivecount : Z
}.

(** [hou.SopNode]: [geometry()] and [path()]. *)
Record SopNode : Type := {
  node_geometry : Geometry;
  node_path : string
}.

Definition _attrib_dtype (attrib : Attrib) : result (option dtype) :=
  match attr_dataType attrib with
  | attribData.Int => Ok (Some int32)
  | attribData.Float => Ok (Some float32)
  | attribData.String => Ok None
  | t => Err (UnsupportedAttributeType t)
  end.

Definition _attrib_type_str (attrib : Attrib) : string :=
  match attr_dataType attrib with
  | attribData.Int => "int"
  | attribData.Float => "float"
  | attribData.String => "string"
  | attribData.Dict => "attribData.Dict"
  end.

Definition _get_attribs (geo : Geometry) (atype : attribType.t) : list Attrib :=
  match atype with
  | attribType.Point => pointAttribs geo
  | attribType.Vertex => vertexAttribs geo
  | attribType.Prim => primAttribs geo
  | attribType.Global => globalAttribs geo
  end.

(** ** Attribute export *)

Definition _export_attrib_array (elems : list Elem) (attrib : Attrib)
  : result (data * string) :=
  let name := attr_name attrib in
  let size := attr_size attrib in
  if bool_decide (attr_dataType attrib = attribData.String) then
    Ok (DList (map (fun e => e name) elems), "txt")
  else
    match _attrib_dtype attrib with
    | Err e => Err e
    | Ok dt =>
        let values := map (fun e => e name) elems in
        match np_asarray values dt with
        | Err e => Err e
        | Ok arr =>
            if 1 <? size then
              match np_reshape arr (length values) size with
              | Err e => Err e
              | Ok arr' => Ok (DArray arr', "array")
              end
            else Ok (DArray arr, "array")
        end
    end.

(** ** The exporter *)

(** [fmt] as [export_geo_schema] settles it from its [format] argument. *)
Definition resolve_format (format : option string) : string :=
  let fmt := match format with None => "npy" | Some f => lower f end in
  if bool_decide (fmt = "binary") then "npy" else fmt.

Definition known_formats : list string := ["ascii"; "npy"; "pickle"; "single"].

(** [frame] as [export_geo_schema] settles it. *)
Definition resolve_frame (hou : Hou) (frame : option Z) : Z :=
  match frame with
  | None => int_of_float (hou_frame hou)
  | Some f => f
  end.

(** [out_root / f"{name}_F{frame}"]. *)
Definition root_path (out_root : path) (name : string) (frame : Z) : path :=
  path_join out_root (name +:+ "_F" +:+ pretty frame).

(** The dict [dirs], in insertion order. *)
Definition domain_dirs (root : path) : list (attribType.t * path) :=
  [ (attribType.Point, path_join root "Point");
    (attribType.Vertex, path_join root "Vertex");
    (attribType.Prim, path_join root "Primitive");
    (attribType.Global, path_join root "Detail") ].

(** The elements of a domain. *)
Definition domain_elems (geo : Geometry) (atype : attribType.t) : list Elem :=
  match atype with
  | attribType.Point => geo_points geo
  | attribType.Vertex =>
      map vertex_attribValue (flat_map prim_vertices (geo_prims geo))
  | attribType.Prim => map prim_attribValue (geo_prims geo)
  | attribType.Global => [geo_attribValue geo]
  end.

(** The two dicts the loops fill: [single_obj] and [attrib_meta]. *)
Definition export_state : Type := dict (dict data) * dict (dict json).

Definition empty_domains {V} : dict (dict V) :=
  [("Point", []); ("Vertex", []); ("Primitive", []); ("Detail", [])].

(** The body of [for attrib in attribs].  The test [kind == "array"] is the
    case analysis on [dat]: the tag is "array" for an array and "txt" for a
    list of strings. *)
Definition export_attrib (fmt : string) (single : bool)
    (elems : list Elem) (folder : path)
    (st : export_state) (attrib : Attrib) : io export_state :=
  let '(single_obj, attrib_meta) := st in
  let name_attr := attr_name attrib in
  '(dat, kind) ← lift (_export_attrib_array elems attrib);
  let folder_name := path_name folder in
  single_obj ← lift (dict_set2 folder_name name_attr dat single_obj);
  (if negb single then
     let path_base := path_join folder name_attr in
     match dat with
     | DArray arr => _save_array path_base (Some arr) fmt
     | DList l =>
         write_file (with_suffix path_base ".txt")
           (TextFile (text_lines (map str_pyval l)))
     end
   else mret ());;
  attrib_meta ←
    lift (dict_set2 folder_name name_attr
            (JObj [("type", JStr (_attrib_type_str attrib));
                   ("size", JInt (attr_size attrib))]) attrib_meta);
  mret (single_obj, attrib_meta).

(** The body of [for atype, folder in dirs.items()]. *)
Definition export_domain (fmt : string) (single : bool) (geo : Geometry)
    (st : export_state) (d : attribType.t * path) : io export_state :=
  let '(atype, folder) := d in
  for_each (export_attrib fmt single (domain_elems geo atype) folder)
    (_get_attribs geo atype) st.

Definition int32_array (l : list Z) : ndarray :=
  {| nd_dtype := Some int32; nd_shape := [length l]; nd_data := map SInt l |}.

(** The manifest. *)
Definition build_meta (hou : Hou) (sop_node : SopNode) (name : string)
    (frame : Z) (fmt : string) (attrib_meta : dict (dict json)) : json :=
  let geo := node_geometry sop_node in
  JObj [ ("name", JStr name);
         ("frame", JInt frame);
         ("node", JStr (node_path sop_node));
         ("hipFile", JStr (hipFile_path hou));
         ("houdini_version", JStr (applicationVersionString hou));
         ("storage", JObj [("format", JStr fmt)]);
         ("counts", JObj [("points", JInt (intrinsic_pointcount geo));
                          ("primitives", JInt (intrinsic_primitivecount geo))]);
         ("attributes", JObj (map (fun kv => (fst kv, JObj (snd kv))) attrib_meta)) ].

(** The three topology pseudo-attributes of the Vertex domain. *)
Definition export_topology (fmt : string) (single : bool) (geo : Geometry)
    (root : path) (single_obj : dict (dict data)) : io (dict (dict data)) :=
  let prims := geo_prims geo in
  let vertices := flat_map prim_vertices prims in
  let vertex_point_indices := int32_array (map vertex_point_number vertices) in
  let prim_vertex_counts :=
    map (fun p => Z.of_nat (length (prim_vertices p))) prims in
  let vertexcount := int32_array prim_vertex_counts in
  let nvertices_rle := int32_array (_rle_encode_int prim_vertex_counts) in
  single_obj ← lift (dict_set2 "Vertex" "pointref"
                       (DArray vertex_point_indices) single_obj);
  single_obj ← lift (dict_set2 "Vertex" "vertexcount"
                       (DArray vertexcount) single_obj);
  single_obj ← lift (dict_set2 "Vertex" "nvertices_rle"
                       (DArray nvertices_rle) single_obj);
  (if negb single then
     let vdir := path_join root "Vertex" in
     _save_array (path_join vdir "pointref") (Some vertex_point_indices) fmt;;
     _save_array (path_join vdir "vertexcount") (Some vertexcount) fmt;;
     _save_array (path_join vdir "nvertices_rle") (Some nvertices_rle) fmt
   else mret ());;
  mret single_obj.

(** The end of [export_geo_schema]: the archive, or the manifest file. *)
Definition write_outputs (single : bool) (root : path)
    (single_obj : dict (dict data)) (meta : json) : io path :=
  if single then
    let out_path := with_suffix root ".pkl" in
    write_file out_path (PickleObject single_obj meta);;
    mret out_path
  else
    write_file (path_join root "metadata.json")
      (TextFile (_format_json_braces (json_dumps meta)));;
    mret root.

Definition export_geo_schema (hou : Hou) (sop_node : SopNode) (out_root : path)
    (name : string) (frame : option Z) (format : option string) : io path :=
  let frame := resolve_frame hou frame in
  let fmt := resolve_format format in
  if negb (bool_decide (fmt ∈ known_formats)) then
    raise (UnsupportedFormat fmt)
  else
    let single := bool_decide (fmt = "single") in
    let geo := node_geometry sop_node in
    let root := root_path out_root name frame in
    let dirs := domain_dirs root in
    (if single then _ensure_dir out_root
     else for_each (fun _ d => _ensure_dir (snd d)) dirs ());;
    '(single_obj, attrib_meta) ←
      for_each (export_domain fmt single geo) dirs
        (empty_domains, empty_domains);
    single_obj ← export_topology fmt single geo root single_obj;
    let meta := build_meta hou sop_node name frame fmt attrib_meta in
    write_outputs single root single_obj meta.

End Exporter.

Arguments SInt {float} z.
Arguments SFloat {float} x.
Arguments SStr {float} s.
Arguments PScalar {float} s.
Arguments PTuple {float} l.
Arguments DList {float} l.
Arguments DArray {float} a.
Arguments TextFile {float} text.
Arguments NpyFile {float} a.
Arguments PickleArray {float} a.
Arguments PickleObject {float} single_obj metadata.
Arguments nd_dtype {float} n.
Arguments nd_shape {float} n.
Arguments nd_data {float} n.
Arguments ndim {float} a.
Arguments nd_rows {float} a.
Arguments is_scalar {float} v.
Arguments is_tuple_of {float} w v.
Arguments components {float} v.
Arguments np_asarray {float} values dt.
Arguments np_reshape {float} arr n size.
Arguments int32_array {float} l.
Arguments str_scalar {float} str_float s.
Arguments str_pyval {float} str_float str_tuple v.
Arguments fs_dirs {float} f.
Arguments fs_files {float} f.
Arguments fs_mkdir {float} fs p.
Arguments fs_write {float} fs p c.
Arguments raise {float A} e.
Arguments lift {float A} r.
Arguments for_each {float A S} f l st.
Arguments _ensure_dir {float} p.
Arguments write_file {float} p c.
Arguments _save_ascii {float} str_float p arr.
Arguments _save_array {float} str_float path_base arr fmt.
Arguments vertex_attribValue {float} v.
Arguments vertex_point_number {float} v.
Arguments prim_attribValue {float} p.
Arguments prim_vertices {float} p.
Arguments pointAttribs {float} g.
Arguments vertexAttribs {float} g.
Arguments primAttribs {float} g.
Arguments globalAttribs {float} g.
Arguments geo_points {float} g.
Arguments geo_prims {float} g.
Arguments geo_attribValue {float} g.
Arguments intrinsic_pointcount {float} g.
Arguments intrinsic_primitivecount {float} g.
Arguments node_geometry {float} s.
Arguments node_path {float} s.
Arguments _get_attribs {float} geo atype.
Arguments _export_attrib_array {float} elems attrib.
Arguments domain_elems {float} geo atype.
Arguments export_attrib {float} str_float str_tuple fmt single elems folder st attrib.
Arguments export_domain {float} str_float str_tuple fmt single geo st d.
Arguments build_meta {float} hou sop_node name frame fmt attrib_meta.
Arguments export_topology {float} str_float fmt single geo root single_obj.
Arguments write_outputs {float} single root single_obj meta.
Arguments export_geo_schema {float} str_float str_tuple hou sop_node out_root name frame format.

(** ** Well-formed providers *)


Definition supported_type (t : attribData.t) : Prop :=
  t = attribData.Int ∨ t = attribData.Float ∨ t = attribData.String.


(** The attributes in the order the two loops of the exporter meet them,
    each with its domain and folder. *)
Definition ordered_attribs {float} (geo : Geometry float) (root : path)
  : list (attribType.t * path * Attrib) :=
  flat_map (fun d => map (fun a => (d, a)) (_get_attribs geo (fst d)))
    (domain_dirs root).

(** The file of an attribute in the per-file layout. *)
Definition attrib_file (fmt : string) (folder : path) (a : Attrib) : path :=
  with_suffix (path_join folder (attr_name a))
    (if bool_decide (attr_dataType a = attribData.String) then ".txt"
     else if bool_decide (fmt = "ascii") then ".txt"
     else if bool_decide (fmt = "pickle") then ".pkl"
     else ".npy").

(** The keys of the two dicts of the loops, which never change. *)
Definition domain_names : list string :=
  ["Point"; "Vertex"; "Primitive"; "Detail"].

Definition keys {V} (d : dict V) : list string := map fst d.

Definition state_ok {float} (st : export_state float) : Prop :=
  keys (fst st) = domain_names ∧ keys (snd st) = domain_names.

(** ** The brace reflow, line by line *)

(** The leading white space of a line. *)
Definition indent_of (line : string) : string :=
  slice_to (String.length line - String.length (lstrip line)) line.

(** What [_format_json_braces] puts out for one line. *)
Definition reflow_line (line : string) : list string :=
  if endswith (rstrip line) ": {" then
    [drop_last 2 (rstrip line); indent_of line +:+ "{"]
  else [line].

(** The reflow in the words of the specification: the line with its trailing
    brace removed, then the brace on a line of its own at the same
    indentation. *)
Definition reflow_line_as_worded (line : string) : list string :=
  if endswith (rstrip line) ": {" then
    [drop_last 1 (rstrip line); indent_of line +:+ "{"]
  else [line].

Definition format_json_braces_as_worded (text : string) : string :=
  join nl (flat_map reflow_line_as_worded (splitlines text)) +:+ nl.

(** The archive path in the words of the specification: the extension
    appended to the output root. *)
Definition append_extension (p : path) (ext : string) : path :=
  removelast p ++ [path_name p +:+ ext].

(** ** A small scene

    Four points, one quad; a float attribute of width three on the points,
    an integer and a string attribute on the primitive. *)

Definition demo_str_float (x : Z) : string := pretty x +:+ ".0".

Definition demo_str_tuple (l : list (scalar Z)) : string :=
  "(" +:+ join ", " (map (str_scalar demo_str_float) l) +:+ ")".

Definition demo_hou : Hou :=
  {| hou_frame := (49 # 2)%Q;
     hipFile_path := "/proj/scene.hip";
     applicationVersionString := "20.0.547" |}.

Definition demo_point (x y z : Z) : Elem Z :=
  fun _ => PTuple [SFloat x; SFloat y; SFloat z].

Definition demo_vertex (i : Z) : Vertex Z :=
  {| vertex_attribValue := fun _ => PScalar (SInt 0);
     vertex_point_number := i |}.

Definition demo_quad : Prim Z :=
  {| prim_attribValue :=
       fun n => if decide (n = "id") then PScalar (SInt 7)
                else PScalar (SStr "wall");
     prim_vertices := [demo_vertex 0; demo_vertex 1; demo_vertex 2;
                       demo_vertex 3] |}.

Definition attr_P : Attrib :=
  {| attr_name := "P"; attr_dataType := attribData.Float; attr_size := 3 |}.

Definition attr_id : Attrib :=
  {| attr_name := "id"; attr_dataType := attribData.Int; attr_size := 1 |}.

Definition attr_mat : Attrib :=
  {| attr_name := "mat"; attr_dataType := attribData.String; attr_size := 1 |}.


Definition demo_geo (prim_attribs : list Attrib) : Geometry Z :=
  {| pointAttribs := [attr_P];
     vertexAttribs := [];
     primAttribs := prim_attribs;
     globalAttribs := [];
     geo_points := [demo_point 0 0 0; demo_point 1 0 0; demo_point 1 1 0;
                    demo_point 0 1 0];
     geo_prims := [demo_quad];
     geo_attribValue := fun _ => PScalar (SInt 0);
     intrinsic_pointcount := 4;
     intrinsic_primitivecount := 1 |}.

Definition demo_node (prim_attribs : list Attrib) : SopNode Z :=
  {| node_geometry := demo_geo prim_attribs; node_path := "/obj/geo1/OUT" |}.

Definition empty_fs : FS Z := {| fs_dirs := ∅; fs_files := ∅ |}.

(** An array of rank 0, as [np.asarray(5)] is. *)
Definition rank0_array : ndarray Z :=
  {| nd_dtype := Some int32; nd_shape := []; nd_data := [SInt 5] |}.

(** The body of the two loops of the exporter on one attribute, given with
    its domain and folder. *)
Definition export_item {float} (str_float : float → string)
    (str_tuple : list (scalar float) → string) (fmt : string) (single : bool)
    (geo : Geometry float) (st : export_state float)
    (item : attribType.t * path * Attrib) : io float (export_state float) :=
  export_attrib str_float str_tuple fmt single
    (domain_elems geo (fst (fst item))) (snd (fst item)) st (snd item).

(** The formats of the per-file layout. *)
Definition per_file_formats : list string := ["ascii"; "npy"; "pickle"].

(** [j[k]] for a JSON object. *)
Definition json_field (k : string) (j : json) : option json :=
  match j with
  | JObj fields => dict_get k fields
  | _ => None
  end.

(** The text of a manifest, as [json.dumps] gives it. *)
Definition demo_manifest_text : string :=
  json_dumps (build_meta demo_hou (demo_node [attr_id; attr_mat]) "geo" 24
                "npy" empty_domains).

(** ** Run-length encodings in canonical form *)

(** The sum of the run lengths of an encoding. *)
Fixpoint rle_runs (enc : list Z) : Z :=
  match enc with
  | _ :: r :: rest => r + rle_runs rest
  | _ => 0
  end.

(** An encoding in canonical form: whole pairs, every run length positive,
    and no two neighbouring pairs with the same value. *)
Fixpoint rle_canonical (enc : list Z) : Prop :=
  match enc with
  | [] => True
  | v :: r :: rest =>
      0 < r
      ∧ match rest with
        | v' :: _ => v ≠ v'
        | [] => True
        end
      ∧ rle_canonical rest
  | [_] => False
  end.

(** The file name extension [_save_array] gives each format. *)
Definition format_extension (fmt : string) : string :=
  if bool_decide (fmt = "ascii") then ".txt"
  else if bool_decide (fmt = "pickle") then ".pkl"
  else ".npy".

(** The format names [_save_array] has a branch for. *)
Definition array_formats : list string := ["ascii"; "npy"; "binary"; "pickle"].

(** ** What a computation leaves of the file system *)

(** Everything of [fs] is still in [fs']: each directory, and a file at
    each path that held one. *)
Definition fs_le {float} (fs fs' : FS float) : Prop :=
  fs_dirs fs ⊆ fs_dirs fs'
  ∧ ∀ p, is_Some (fs_files fs !! p) → is_Some (fs_files fs' !! p).

(** A computation that removes nothing, whatever it returns. *)
Definition keeps_all {float A} (m : io float A) : Prop :=
  ∀ fs, fs_le fs (snd (m fs)).

(** A computation that leaves the file system as it is, whatever it
    returns. *)
Definition touches_nothing {float A} (m : io float A) : Prop :=
  ∀ fs, snd (m fs) = fs.

(** ** The caller: [main] of [export_geo_from_hip.py] *)

(** The format [main] passes on, from the optional [format] entry of the
    configuration. *)
Definition main_format (cfg_format : option string) : string :=
  match cfg_format with
  | None => "npy"
  | Some f =>
      let format := lower f in
      if bool_decide (format = "binary") then "npy" else format
  end.

(** The names of the three topology pseudo-attributes. *)
Definition topology_names : list string :=
  ["pointref"; "vertexcount"; "nvertices_rle"].

(** [sum(l)]. *)
Definition sum_list (l : list Z) : Z := foldr Z.add 0 l.

(** A text without its white space. *)
Fixpoint strip_spaces (s : string) : string :=
  match s with
  | EmptyString => ""
  | String c s' =>
      if is_space c then strip_spaces s' else String c (strip_spaces s')
  end.

(** The strings of a list, one after the other. *)
Definition cat_all (l : list string) : string := foldr String.append "" l.

(** A string that holds no line boundary. *)
Fixpoint no_break (s : string) : bool :=
  match s with
  | EmptyString => true
  | String c s' => negb (is_linebreak c) && no_break s'
  end.

(** The last character of a string. *)
Fixpoint last_char (s : string) : option ascii :=
  match s with
  | EmptyString => None
  | String c EmptyString => Some c
  | String _ s' => last_char s'
  end.

(** ** The attribute index of the manifest *)

(** The descriptor the loop records for an attribute. *)
Definition attrib_descriptor (a : Attrib) : json :=
  JObj [("type", JStr (_attrib_type_str a)); ("size", JInt (attr_size a))].

(** The attribute index in closed form: the four domains in the order of
    the loop, each with its attributes in declared order. *)
Definition manifest_attribs {float} (geo : Geometry float) : dict (dict json) :=
  map (fun d : attribType.t * string =>
         (snd d,
          map (fun a => (attr_name a, attrib_descriptor a))
            (_get_attribs geo (fst d))))
    [ (attribType.Point, "Point"); (attribType.Vertex, "Vertex");
      (attribType.Prim, "Primitive"); (attribType.Global, "Detail") ].

(** [attrib_meta] after the body of the loop has run on an attribute. *)
Definition meta_after (am : dict (dict json))
    (item : attribType.t * path * Attrib) : dict (dict json) :=
  match dict_set2 (path_name (snd (fst item))) (attr_name (snd item))
          (attrib_descriptor (snd item)) am with
  | Ok am' => am'
  | Err _ => am
  end.

(** ** An array attribute *)




(** ** Where the files go *)






(** ** Proof steps *)

(** Runs the plumbing of [io]. *)
Ltac run_io :=
  unfold mbind, io_bind, mret, io_ret, lift, write_file, raise; cbn beta iota.

(** Settles a decidable closed statement by evaluation. *)
Ltac by_computation := apply (bool_decide_unpack _); vm_compute; exact I.

(** * Part II: the properties *)

(** ** Run-length encoding *)

Lemma paired_snoc l v r : paired l → paired (l ++ [v; r]).
Proof. induction 1; simpl; repeat constructor; auto. Qed.

Lemma rle_decode_app l1 l2 :
  paired l1 → rle_decode (l1 ++ l2) = rle_decode l1 ++ rle_decode l2.
Proof.
  induction 1 as [|v r l _ IH]; [done|].
  cbn [app rle_decode]. by rewrite IH, (assoc_L (++)).
Qed.

Lemma replicate_succ_snoc (n : nat) (v : Z) :
  replicate (S n) v = replicate n v ++ [v].
Proof. induction n as [|n IH]; [done|]. simpl in *. by rewrite <- IH. Qed.

(** The invariant of the loop: [out] holds whole pairs, [run] is positive,
    and [out] with the pending pair decodes to what has been read. *)
Lemma rle_fold_decode rest : ∀ out current run,
  paired out → 0 < run →
  ∃ out' current' run',
    fold_left rle_step rest (out, current, run) = (out', current', run')
    ∧ paired out' ∧ 0 < run'
    ∧ rle_decode (out' ++ [current'; run'])
      = rle_decode (out ++ [current; run]) ++ rest.
Proof.
  induction rest as [|v rest IH]; intros out current run Hp Hr.
  - exists out, current, run. by rewrite (right_id_L [] (++)).
  - cbn [fold_left rle_step]. destruct (Z.eqb_spec v current) as [->|Hne].
    + destruct (IH out current (run + 1)) as (o & c & r & Hf & ? & ? & Hd);
        [done|lia|].
      exists o, c, r. rewrite Hf, Hd. repeat split; try done.
      rewrite !rle_decode_app by done. cbn [rle_decode].
      rewrite !(right_id_L [] (++)).
      replace (Z.to_nat (run + 1)) with (S (Z.to_nat run)) by lia.
      rewrite replicate_succ_snoc. by rewrite <- !(assoc_L (++)).
    + destruct (IH (out ++ [current; run]) v 1)
        as (o & c & r & Hf & ? & ? & Hd); [by apply paired_snoc|lia|].
      exists o, c, r. rewrite Hf, Hd. repeat split; try done.
      rewrite (rle_decode_app (out ++ [current; run])) by by apply paired_snoc.
      by rewrite <- !(assoc_L (++)).
Qed.

(** C1. Decoding the output of [_rle_encode_int] -- reading it as consecutive
    (value, runLength) pairs and repeating each value runLength times -- gives
    back the original sequence, for every finite sequence of integers (the
    empty one, all-equal and all-distinct ones included). *)
Theorem C1_rle_roundtrip (values : list Z) :
  rle_decode (_rle_encode_int values) = values.
Proof.
  destruct values as [|v0 rest]; [done|].
  unfold _rle_encode_int.
  destruct (rle_fold_decode rest [] v0 1) as (o & c & r & -> & _ & _ & Hd);
    [constructor|lia|].
  by rewrite Hd.
Qed.

(** ** Strings *)

Lemma app_cons_str (c : ascii) (a b : string) :
  String c a +:+ b = String c (a +:+ b).
Proof. reflexivity. Qed.

Lemma app_nil_str (b : string) : "" +:+ b = b.
Proof. reflexivity. Qed.

Lemma app_nil_r_str (a : string) : a +:+ "" = a.
Proof. induction a as [|c a IH]; [done|]. by rewrite app_cons_str, IH. Qed.

Lemma app_assoc_str (a b c : string) : (a +:+ b) +:+ c = a +:+ b +:+ c.
Proof.
  induction a as [|x a IH]; [done|]. by rewrite !app_cons_str, IH.
Qed.

Lemma length_app_str (a b : string) :
  String.length (a +:+ b) = (String.length a + String.length b)%nat.
Proof.
  induction a as [|x a IH]; [done|]. rewrite app_cons_str. simpl. by rewrite IH.
Qed.

Lemma substring_all (s : string) : String.substring 0 (String.length s) s = s.
Proof. induction s as [|c s IH]; [done|]. simpl. by rewrite IH. Qed.

Lemma substring_prefix (a b : string) (k : nat) :
  String.substring 0 (String.length a + k) (a +:+ b)
  = a +:+ String.substring 0 k b.
Proof.
  induction a as [|c a IH]; [done|].
  rewrite !app_cons_str. simpl. by rewrite IH.
Qed.

Lemma substring_skip (a b : string) (n m : nat) :
  String.substring (String.length a + n) m (a +:+ b) = String.substring n m b.
Proof. induction a as [|c a IH]; [done|]. rewrite app_cons_str. apply IH. Qed.

Lemma endswith_app (a suf : string) : endswith (a +:+ suf) suf = true.
Proof.
  unfold endswith. rewrite length_app_str.
  replace (String.length a + String.length suf - String.length suf)%nat
    with (String.length a + 0)%nat by lia.
  rewrite substring_skip, substring_all.
  rewrite bool_decide_eq_true_2 by done.
  rewrite andb_true_r. apply Nat.leb_le. lia.
Qed.

Lemma drop_last_app (a suf : string) (n : nat) :
  (n ≤ String.length suf)%nat →
  drop_last n (a +:+ suf) = a +:+ drop_last n suf.
Proof.
  intros Hn. unfold drop_last. rewrite length_app_str.
  replace (String.length a + String.length suf - n)%nat
    with (String.length a + (String.length suf - n))%nat by lia.
  apply substring_prefix.
Qed.

Lemma rstrip_app_space (a ws : string) :
  rstrip ws = "" → rstrip (a +:+ ws) = rstrip a.
Proof.
  intros Hws. induction a as [|c a IH]; [done|].
  rewrite app_cons_str. simpl. by rewrite IH.
Qed.

Lemma rstrip_app_kept (a b : string) :
  rstrip b ≠ "" → rstrip (a +:+ b) = a +:+ rstrip b.
Proof.
  intros Hb. induction a as [|c a IH]; [done|].
  rewrite !app_cons_str. simpl. rewrite IH.
  destruct (a +:+ rstrip b) eqn:E; [|done].
  destruct a; [by rewrite app_nil_str in E|by rewrite app_cons_str in E].
Qed.

Lemma lstrip_app_space (ind r : string) :
  lstrip ind = "" → lstrip (ind +:+ r) = lstrip r.
Proof.
  induction ind as [|c ind IH]; [done|].
  rewrite app_cons_str. simpl. destruct (is_space c); [exact IH|done].
Qed.

Lemma lstrip_length (s : string) :
  (String.length (lstrip s) ≤ String.length s)%nat.
Proof.
  induction s as [|c s IH]; [done|]. simpl.
  destruct (is_space c); simpl; lia.
Qed.

Lemma lstrip_fixed_app (b r : string) :
  lstrip b = b → lstrip r = r → lstrip (b +:+ r) = b +:+ r.
Proof.
  intros Hb Hr. destruct b as [|c b]; [done|].
  rewrite app_cons_str. simpl in *.
  destruct (is_space c); [|done].
  pose proof (lstrip_length b) as Hlen. rewrite Hb in Hlen. simpl in Hlen. lia.
Qed.

Lemma indent_of_app (ind r : string) :
  lstrip ind = "" → lstrip r = r → indent_of (ind +:+ r) = ind.
Proof.
  intros Hind Hr. unfold indent_of, slice_to.
  rewrite lstrip_app_space, Hr, length_app_str by done.
  replace (String.length ind + String.length r - String.length r)%nat
    with (String.length ind + 0)%nat by lia.
  rewrite substring_prefix. simpl.
  destruct r; simpl; apply app_nil_r_str.
Qed.

(** ** The brace reflow *)

Lemma brace_fold (lines : list string) :
  ∀ out, fold_left brace_step lines out = out ++ flat_map reflow_line lines.
Proof.
  induction lines as [|line lines IH]; intros out.
  - cbn [fold_left flat_map]. by rewrite app_nil_r.
  - cbn [fold_left flat_map]. rewrite IH.
    unfold brace_step, reflow_line, indent_of.
    destruct (endswith (rstrip line) ": {"); by rewrite <- !(assoc_L (++)).
Qed.

(** A line made of an indentation, a body, the colon, a space and the brace,
    with or without white space behind: the brace goes to a line of its own,
    and the space before it goes too. *)
Lemma reflow_line_brace (ind body ws : string) :
  lstrip ind = "" → lstrip body = body → rstrip ws = "" →
  reflow_line (ind +:+ body +:+ ": {" +:+ ws)
  = [ind +:+ body +:+ ":"; ind +:+ "{"].
Proof.
  intros Hind Hbody Hws. unfold reflow_line.
  assert (rstrip (ind +:+ body +:+ ": {" +:+ ws) = ind +:+ body +:+ ": {")
    as Hstrip.
  { rewrite <- !app_assoc_str. rewrite rstrip_app_space by done.
    rewrite rstrip_app_kept by (intros H; vm_compute in H; discriminate H).
    reflexivity. }
  rewrite Hstrip.
  replace (ind +:+ body +:+ ": {") with ((ind +:+ body) +:+ ": {")
    by apply app_assoc_str.
  rewrite endswith_app, drop_last_app by (simpl; lia).
  rewrite app_assoc_str. f_equal.
  f_equal. rewrite indent_of_app; [done..|].
  apply lstrip_fixed_app; [done|]. reflexivity.
Qed.

Section Proofs.

Context {float : Type}.
Variable str_float : float → string.
Variable str_tuple : list (scalar float) → string.

Implicit Types (v : pyval float) (values : list (pyval float)).
Implicit Types (elems : list (Elem float)) (fs : FS float).

(** ** Array coercion *)








(** ** Format names *)

(** C3. A format name the exporter does not know (after lowercasing and the
    alias) makes [export_geo_schema] fail with UnsupportedFormat before any
    file-system I/O: the file system is the one it was called on, with no
    directory created and no file written. *)
Theorem C3_unknown_format_fails_before_io (hou : Hou) (node : SopNode float)
    (out_root : path) (name : string) (frame : option Z)
    (format : option string) fs :
  resolve_format format ∉ known_formats →
  export_geo_schema str_float str_tuple hou node out_root name frame format fs
  = (Err (UnsupportedFormat (resolve_format format)), fs).
Proof.
  intros Hunknown. unfold export_geo_schema.
  by rewrite bool_decide_eq_false_2.
Qed.

(** C4. The format name "binary" is an alias of "npy", the name of the
    dense binary format in the code: with the same provider and the same
    other parameters the export behaves the same and leaves the same
    outputs under either name, and so does [_save_array]. *)
Theorem C4_binary_alias (hou : Hou) (node : SopNode float) (out_root : path)
    (name : string) (frame : option Z) fs :
  export_geo_schema str_float str_tuple hou node out_root name frame
    (Some "binary") fs
  = export_geo_schema str_float str_tuple hou node out_root name frame
      (Some "npy") fs
  ∧ ∀ (p : path) (arr : option (ndarray float)),
      _save_array str_float p arr "binary" fs
      = _save_array str_float p arr "npy" fs.
Proof.
  split.
  - unfold export_geo_schema.
    replace (resolve_format (Some "binary")) with (resolve_format (Some "npy"))
      by (vm_compute; reflexivity).
    reflexivity.
  - intros p [a|]; reflexivity.
Qed.

(** ** The ascii serializer *)

(** The rows of a matrix given row by row are those rows. *)
Lemma nd_rows_concat (dt : option dtype) (w : nat)
    (rows : list (list (scalar float))) :
  Forall (fun r => length r = w) rows →
  nd_rows {| nd_dtype := dt; nd_shape := [length rows; w];
             nd_data := concat rows |} = rows.
Proof.
  unfold nd_rows. cbn [nd_shape nd_data].
  induction 1 as [|r rows Hr _ IH]; [done|].
  cbn [length seq map concat]. f_equal.
  - by apply take_app_length'.
  - rewrite <- fmap_S_seq. rewrite <- IH at 2.
    change (S <$> seq 0 (length rows)) with (map S (seq 0 (length rows))).
    rewrite map_map. apply map_ext. intros i.
    replace (S i * w)%nat with (w + i * w)%nat by lia.
    by rewrite drop_app_add'.
Qed.

(** C6 (as the code has it). A rank-1 array is written one value per line,
    a rank-2 array one row per line with its columns joined by spaces, and
    the serializer fails with UnsupportedRank exactly when the rank is
    neither 1 nor 2: above 2, and also 0.  On failure the file has been
    opened, and is left empty. *)
Theorem C6_save_ascii_by_rank (p : path) (a : ndarray float) fs :
  _save_ascii str_float p (Some a) fs
  = match ndim a with
    | 1%nat =>
        (Ok (), fs_write fs p
                  (TextFile (text_lines (map (str_scalar str_float)
                                           (nd_data a)))))
    | 2%nat =>
        (Ok (), fs_write fs p
                  (TextFile
                     (text_lines
                        (map (fun row =>
                                join " " (map (str_scalar str_float) row))
                           (nd_rows a)))))
    | n => (Err (UnsupportedRank n), fs_write fs p (TextFile ""))
    end
  ∧ (is_err (fst (_save_ascii str_float p (Some a) fs)) = true
     ↔ ndim a ≠ 1%nat ∧ ndim a ≠ 2%nat)
  ∧ ∀ dt w rows,
      a = {| nd_dtype := dt; nd_shape := [length rows; w];
             nd_data := concat rows |} →
      Forall (fun r => length r = w) rows →
      _save_ascii str_float p (Some a) fs
      = (Ok (), fs_write fs p
                  (TextFile
                     (text_lines
                        (map (fun row =>
                                join " " (map (str_scalar str_float) row))
                           rows)))).
Proof.
  assert (_save_ascii str_float p (Some a) fs
          = match ndim a with
            | 1%nat =>
                (Ok (), fs_write fs p
                          (TextFile (text_lines (map (str_scalar str_float)
                                                   (nd_data a)))))
            | 2%nat =>
                (Ok (), fs_write fs p
                          (TextFile
                             (text_lines
                                (map (fun row =>
                                        join " "
                                          (map (str_scalar str_float) row))
                                   (nd_rows a)))))
            | n => (Err (UnsupportedRank n), fs_write fs p (TextFile ""))
            end) as Heq.
  { unfold _save_ascii.
    destruct (ndim a) as [|[|[|n]]] eqn:Hn; try reflexivity. }
  split; [exact Heq|]. split.
  - rewrite Heq. destruct (ndim a) as [|[|[|n]]]; simpl; split;
      try done; try (intros [? ?]; done); intros _; split; lia.
  - intros dt w rows -> Hrows. rewrite Heq. cbn [ndim nd_shape length].
    by rewrite nd_rows_concat.
Qed.

(** ** The loops of the exporter *)

Lemma bind_ok {A B} (m : io float A) (k : A → io float B) fs a fs' :
  m fs = (Ok a, fs') → (m ≫= k) fs = k a fs'.
Proof. intros H. unfold mbind, io_bind. by rewrite H. Qed.


Lemma bind_inv_ok {A B} (m : io float A) (k : A → io float B) fs b fs2 :
  (m ≫= k) fs = (Ok b, fs2) →
  ∃ a fs1, m fs = (Ok a, fs1) ∧ k a fs1 = (Ok b, fs2).
Proof.
  unfold mbind, io_bind. destruct (m fs) as [[a|e] fs1]; [eauto|done].
Qed.

Lemma dict_get_keys {V} (k : string) (d : dict V) :
  k ∈ keys d → is_Some (dict_get k d).
Proof.
  induction d as [|[k' v'] d IH]; simpl.
  - intros H. by apply elem_of_nil in H.
  - intros H. destruct (decide (k = k')); [by eexists|].
    apply elem_of_cons in H as [?|?]; [done|auto].
Qed.

Lemma keys_dict_set {V} (k : string) (v : V) (d : dict V) :
  k ∈ keys d → keys (dict_set k v d) = keys d.
Proof.
  induction d as [|[k' v'] d IH]; simpl.
  - intros H. by apply elem_of_nil in H.
  - intros H. destruct (decide (k = k')) as [->|Hne]; [done|].
    simpl. f_equal. apply IH. apply elem_of_cons in H as [?|?]; done.
Qed.

(** The nested assignment never misses its outer key, and keeps the keys. *)
Lemma dict_set2_ok {V} (k1 k2 : string) (v : V) (d : dict (dict V)) :
  k1 ∈ keys d →
  ∃ d', dict_set2 k1 k2 v d = Ok d' ∧ keys d' = keys d.
Proof.
  intros Hk. unfold dict_set2.
  destruct (dict_get_keys k1 d Hk) as [inner ->].
  eexists; split; [done|]. by apply keys_dict_set.
Qed.

(** A string attribute is written as text, whatever the format. *)
Lemma export_attrib_string fmt elems (folder : path) (st : export_state float)
    (a : Attrib) fs :
  attr_dataType a = attribData.String →
  path_name folder ∈ domain_names → state_ok st →
  ∃ st',
    export_attrib str_float str_tuple fmt false elems folder st a fs
    = (Ok st',
       fs_write fs (with_suffix (path_join folder (attr_name a)) ".txt")
         (TextFile
            (text_lines (map (fun e => str_pyval str_float str_tuple
                                         (e (attr_name a))) elems))))
    ∧ state_ok st'.
Proof.
  intros Hty Hfolder [Hk1 Hk2]. destruct st as [so am]. simpl in Hk1, Hk2.
  destruct (dict_set2_ok (path_name folder) (attr_name a)
              (DList (map (fun e => e (attr_name a)) elems)) so)
    as (so' & Hso & Hkso); [by rewrite Hk1|].
  destruct (dict_set2_ok (path_name folder) (attr_name a)
              (JObj [("type", JStr (_attrib_type_str a));
                     ("size", JInt (attr_size a))]) am)
    as (am' & Ham & Hkam); [by rewrite Hk2|].
  unfold export_attrib, _export_attrib_array.
  rewrite bool_decide_eq_true_2 by done.
  run_io. rewrite Hso. cbn. rewrite Ham. rewrite map_map.
  exists (so', am'). split; [done|]. split; simpl; congruence.
Qed.




(** The tag [kind] is "array" for an array and "txt" for a list of strings,
    so that the test [kind == "array"] of the loop is the case analysis on
    what was returned. *)
Lemma export_attrib_array_kind elems (a : Attrib) (dat : data float)
    (kind : string) :
  _export_attrib_array elems a = Ok (dat, kind) →
  (kind = "array" ∧ ∃ arr, dat = DArray arr)
  ∨ (kind = "txt" ∧ ∃ l, dat = DList l).
Proof.
  unfold _export_attrib_array.
  destruct (bool_decide (attr_dataType a = attribData.String)).
  - intros [= <- <-]. right. eauto.
  - destruct (_attrib_dtype a) as [dt|e]; [|done].
    destruct (np_asarray _ dt) as [arr|e]; [|done].
    destruct (1 <? attr_size a).
    + destruct (np_reshape arr _ _) as [arr'|e]; [|done].
      intros [= <- <-]. left. eauto.
    + intros [= <- <-]. left. eauto.
Qed.


(** C5. In the per-file layout the values of a String-typed attribute are
    written through the text path -- a [.txt] file with one value per line
    -- whatever storage format was selected; they never go through the dense
    binary encoding. *)
Theorem C5_string_attrib_always_text (fmt : string) elems (folder : path)
    (st : export_state float) (a : Attrib) fs :
  attr_dataType a = attribData.String →
  path_name folder ∈ domain_names → state_ok st →
  ∃ st',
    export_attrib str_float str_tuple fmt false elems folder st a fs
    = (Ok st',
       fs_write fs (with_suffix (path_join folder (attr_name a)) ".txt")
         (TextFile
            (text_lines (map (fun e => str_pyval str_float str_tuple
                                         (e (attr_name a))) elems)))).
Proof.
  intros Hty Hfolder Hst.
  destruct (export_attrib_string fmt elems folder st a fs Hty Hfolder Hst)
    as (st' & Hrun & _).
  by exists st'.
Qed.

(** ** Failure on an unsupported attribute *)

Lemma bind_ext {A B} (m : io float A) (k1 k2 : A → io float B) fs :
  (∀ a fs', k1 a fs' = k2 a fs') → (m ≫= k1) fs = (m ≫= k2) fs.
Proof.
  intros Hk. unfold mbind, io_bind. destruct (m fs) as [[a|e] fs']; auto.
Qed.

Lemma for_each_app {A S} (f : S → A → io float S) (l1 l2 : list A) :
  ∀ st fs,
    for_each f (l1 ++ l2) st fs = (for_each f l1 st ≫= for_each f l2) fs.
Proof.
  induction l1 as [|x l1 IH]; intros st fs; [done|].
  cbn [app for_each]. unfold mbind, io_bind in *.
  destruct (f st x fs) as [[st'|e] fs']; [apply IH|done].
Qed.

Lemma for_each_map {A B S} (f : S → B → io float S) (h : A → B)
    (l : list A) :
  ∀ st fs,
    for_each f (map h l) st fs = for_each (fun st x => f st (h x)) l st fs.
Proof.
  induction l as [|x l IH]; intros st fs; [done|].
  cbn [map for_each]. by apply bind_ext.
Qed.

(** The two nested loops are one loop over the attributes in order. *)
Lemma for_each_domains_flat fmt single (geo : Geometry float)
    (ds : list (attribType.t * path)) :
  ∀ st fs,
    for_each (export_domain str_float str_tuple fmt single geo) ds st fs
    = for_each (export_item str_float str_tuple fmt single geo)
        (flat_map (fun d => map (fun a => (d, a)) (_get_attribs geo (fst d)))
           ds) st fs.
Proof.
  induction ds as [|[atype folder] ds IH]; intros st fs; [done|].
  cbn [flat_map for_each]. rewrite for_each_app.
  unfold mbind, io_bind. rewrite for_each_map.
  unfold export_domain at 1, export_item at 1. cbn [fst snd].
  destruct (for_each _ (_get_attribs geo atype) st fs) as [[st'|e] fs'];
    [apply IH|done].
Qed.

Lemma fs_write_keeps fs (p q : path) (c : content float) :
  is_Some (fs_files fs !! q) → is_Some (fs_files (fs_write fs p c) !! q).
Proof.
  intros Hq. cbn. destruct (decide (p = q)) as [->|Hne].
  - rewrite lookup_insert_eq. by eexists.
  - by rewrite lookup_insert_ne.
Qed.

Lemma fs_write_there fs (p : path) (c : content float) :
  is_Some (fs_files (fs_write fs p c) !! p).
Proof. cbn. rewrite lookup_insert_eq. by eexists. Qed.



(** An attribute of an unsupported type stops the export, and touches
    nothing. *)
Lemma export_attrib_unsupported fmt single elems (folder : path)
    (st : export_state float) (a : Attrib) fs :
  ¬ supported_type (attr_dataType a) →
  export_attrib str_float str_tuple fmt single elems folder st a fs
  = (Err (UnsupportedAttributeType (attr_dataType a)), fs).
Proof.
  intros Hns. destruct st as [so am].
  unfold export_attrib, _export_attrib_array, _attrib_dtype, supported_type in *.
  destruct (attr_dataType a); try (exfalso; apply Hns; auto; fail).
  reflexivity.
Qed.

Lemma path_name_join (p : path) (s : string) : path_name (path_join p s) = s.
Proof. unfold path_name, path_join. apply last_last. Qed.


Lemma per_file_known (fmt : string) :
  fmt ∈ per_file_formats → fmt ∈ known_formats ∧ fmt ≠ "single".
Proof.
  unfold per_file_formats, known_formats. intros Hfmt.
  repeat (apply elem_of_cons in Hfmt as [->|Hfmt]);
    [split; [set_solver|done]..|by apply elem_of_nil in Hfmt].
Qed.




(** ** The manifest *)

(** C8 (as the code has it). The reflow is a function of the text alone, so
    the same text always gives the same bytes.  Line by line: a line whose
    right-stripped form ends in colon, space, brace is replaced by that
    right-stripped form without its last two characters -- the brace and the
    space before it -- and by a line holding the brace at the indentation of
    the original line; every other line is put out as it is; the lines are
    joined by line feeds and a line feed ends the text.  The manifest file
    of the per-file layout holds the reflowed [json.dumps] text. *)
Theorem C8_brace_reflow :
  (∀ text,
     _format_json_braces text
     = join nl (flat_map reflow_line (splitlines text)) +:+ nl)
  ∧ (∀ ind body ws,
       lstrip ind = "" → lstrip body = body → rstrip ws = "" →
       reflow_line (ind +:+ body +:+ ": {" +:+ ws)
       = [ind +:+ body +:+ ":"; ind +:+ "{"])
  ∧ (∀ line, endswith (rstrip line) ": {" = false → reflow_line line = [line])
  ∧ (∀ (root : path) (single_obj : dict (dict (data float))) (meta : json) fs,
       write_outputs false root single_obj meta fs
       = (Ok root,
          fs_write fs (path_join root "metadata.json")
            (TextFile (_format_json_braces (json_dumps meta))))).
Proof.
  split; [|split; [|split]].
  - intros text. unfold _format_json_braces. by rewrite brace_fold.
  - apply reflow_line_brace.
  - intros line Hno. unfold reflow_line. by rewrite Hno.
  - reflexivity.
Qed.

(** ** The frame *)

(** A successful export ends in [write_outputs], on the root and the
    manifest made from the resolved frame. *)
Lemma export_ok_inv (hou : Hou) (node : SopNode float) (out_root : path)
    (name : string) (frame : option Z) (format : option string) fs p fs' :
  export_geo_schema str_float str_tuple hou node out_root name frame format fs
  = (Ok p, fs') →
  ∃ single_obj attrib_meta fs1,
    write_outputs (bool_decide (resolve_format format = "single"))
      (root_path out_root name (resolve_frame hou frame)) single_obj
      (build_meta hou node name (resolve_frame hou frame)
         (resolve_format format) attrib_meta) fs1
    = (Ok p, fs').
Proof.
  unfold export_geo_schema.
  destruct (bool_decide (resolve_format format ∈ known_formats)); [|done].
  cbn [negb]. intros Hrun.
  apply bind_inv_ok in Hrun as (_ & fs0 & _ & Hrun).
  apply bind_inv_ok in Hrun as ([so am] & fs1 & _ & Hrun).
  apply bind_inv_ok in Hrun as (so' & fs2 & _ & Hrun).
  by exists so', am, fs2.
Qed.

(** C10. With [frame = None] the frame is the integer part of the ambient
    current frame of the host, and that one value is in the name of the
    output root, [<name>_F<frame>], and in the [frame] field of the manifest
    -- the one written to [metadata.json] in the per-file layout, the one
    stored in the archive in the single-archive layout. *)
Theorem C10_ambient_frame (hou : Hou) (node : SopNode float) (out_root : path)
    (name : string) (format : option string) fs (p : path) :
  fst (export_geo_schema str_float str_tuple hou node out_root name None
         format fs) = Ok p →
  ∃ attrib_meta,
    let k := int_of_float (hou_frame hou) in
    let root := path_join out_root (name +:+ "_F" +:+ pretty k) in
    let meta := build_meta hou node name k (resolve_format format) attrib_meta in
    let fs' := snd (export_geo_schema str_float str_tuple hou node out_root
                      name None format fs) in
    json_field "frame" meta = Some (JInt k)
    ∧ if bool_decide (resolve_format format = "single")
      then p = with_suffix root ".pkl"
           ∧ ∃ single_obj,
               fs_files fs' !! p = Some (PickleObject single_obj meta)
      else p = root
           ∧ fs_files fs' !! path_join root "metadata.json"
             = Some (TextFile (_format_json_braces (json_dumps meta))).
Proof.
  destruct (export_geo_schema str_float str_tuple hou node out_root name None
              format fs) as [r fs'] eqn:Hrun.
  cbn [fst snd]. intros ->.
  apply export_ok_inv in Hrun as (so & am & fs1 & Hout).
  exists am. cbn zeta. split; [done|].
  change (resolve_frame hou None) with (int_of_float (hou_frame hou)) in Hout.
  unfold root_path in Hout. unfold write_outputs in Hout.
  destruct (bool_decide (resolve_format format = "single")).
  - revert Hout. run_io. intros [= <- <-]. split; [done|].
    exists so. cbn. by rewrite lookup_insert_eq.
  - revert Hout. run_io. intros [= <- <-]. split; [done|].
    cbn. by rewrite lookup_insert_eq.
Qed.

(** ** The returned path *)

(** A successful export returns the output root in the per-file layout and
    [root.with_suffix(".pkl")] in the single-archive layout. *)
Lemma export_returns (hou : Hou) (node : SopNode float) (out_root : path)
    (name : string) (frame : option Z) (format : option string) fs p fs' :
  export_geo_schema str_float str_tuple hou node out_root name frame format fs
  = (Ok p, fs') →
  p = (if bool_decide (resolve_format format = "single")
       then with_suffix (root_path out_root name (resolve_frame hou frame))
              ".pkl"
       else root_path out_root name (resolve_frame hou frame)).
Proof.
  intros Hrun. apply export_ok_inv in Hrun as (so & am & fs1 & Hout).
  unfold write_outputs in Hout.
  destruct (bool_decide (resolve_format format = "single"));
    revert Hout; run_io; by intros [= <- _].
Qed.

End Proofs.

(** [with_suffix] appends when the name has no suffix of its own. *)
Lemma with_suffix_appends (p : path) (name ext : string) :
  name_suffix name = "" →
  with_suffix (path_join p name) ext = path_join p (name +:+ ext).
Proof.
  intros Hnone. unfold with_suffix, path_join.
  destruct (p ++ [name]) as [|x l] eqn:E.
  - by destruct p.
  - rewrite <- E. unfold path_name. rewrite removelast_last, last_last, Hnone.
    unfold drop_last. cbn [String.length]. rewrite Nat.sub_0_r.
    by rewrite substring_all.
Qed.

(** * Part III: the properties on the small scene *)



(** The name "dense-binary" is not one the exporter knows. *)
Lemma C3_witness :
  (resolve_format (Some "dense-binary") ∉ known_formats)
  ∧ export_geo_schema demo_str_float demo_str_tuple demo_hou
      (demo_node [attr_id; attr_mat]) ["out"] "geo" None
      (Some "dense-binary") empty_fs
    = (Err (UnsupportedFormat "dense-binary"), empty_fs).
Proof.
  assert (resolve_format (Some "dense-binary") ∉ known_formats) as H
    by by_computation.
  exact (conj H
           (C3_unknown_format_fails_before_io demo_str_float demo_str_tuple
              demo_hou (demo_node [attr_id; attr_mat]) ["out"] "geo" None
              (Some "dense-binary") empty_fs H)).
Defined.

(** The string attribute [mat] under the format "npy": still a text file. *)
Lemma C5_witness :
  attr_dataType attr_mat = attribData.String
  ∧ path_name ["out"; "geo_F24"; "Primitive"] ∈ domain_names
  ∧ state_ok ((empty_domains, empty_domains) : export_state Z)
  ∧ ∃ st',
      export_attrib demo_str_float demo_str_tuple "npy" false
        [prim_attribValue demo_quad] ["out"; "geo_F24"; "Primitive"]
        (empty_domains, empty_domains) attr_mat empty_fs
      = (Ok st',
         fs_write empty_fs ["out"; "geo_F24"; "Primitive"; "mat.txt"]
           (TextFile ("wall" +:+ nl))).
Proof.
  assert (attr_dataType attr_mat = attribData.String) as H1 by reflexivity.
  assert (path_name ["out"; "geo_F24"; "Primitive"] ∈ domain_names) as H2
    by by_computation.
  assert (state_ok ((empty_domains, empty_domains) : export_state Z)) as H3
    by (split; reflexivity).
  exact (conj H1 (conj H2 (conj H3
           (C5_string_attrib_always_text demo_str_float demo_str_tuple "npy"
              [prim_attribValue demo_quad] ["out"; "geo_F24"; "Primitive"]
              (empty_domains, empty_domains) attr_mat empty_fs H1 H2 H3)))).
Defined.

(** C6, as stated, fails on an array of rank 0: the serializer raises
    UnsupportedRank on it, and its rank is not above 2. *)
Lemma C6_rank0_counterexample :
  fst (_save_ascii demo_str_float ["out"; "x.txt"] (Some rank0_array) empty_fs)
  = Err (UnsupportedRank 0)
  ∧ ¬ (2 < ndim rank0_array)%nat.
Proof. split; [reflexivity|]. cbn. lia. Qed.


(** C8, as stated, fails on the manifest of the small scene, as on any line
    that is reflowed: the code drops the space before the brace with it,
    where the wording keeps it. *)
Lemma C8_trailing_space_counterexample :
  reflow_line "    key: {" = ["    key:"; "    {"]
  ∧ reflow_line_as_worded "    key: {" = ["    key: "; "    {"]
  ∧ _format_json_braces demo_manifest_text
    ≠ format_json_braces_as_worded demo_manifest_text.
Proof.
  split; [reflexivity|]. split; [reflexivity|].
  intros H. vm_compute in H. discriminate H.
Qed.

(** C9, at a name that holds a dot.  [with_suffix] replaces what follows the
    last dot of [geo.v2_F24], so the archive of the single-archive layout is
    [geo.pkl]: the extension is not appended to the output root, and the
    frame number is lost. *)
Theorem C9_archive_path_loses_frame :
  fst (export_geo_schema demo_str_float demo_str_tuple demo_hou
         (demo_node [attr_id; attr_mat]) ["out"] "geo.v2" (Some 24)
         (Some "single") empty_fs)
  = Ok ["out"; "geo.pkl"]
  ∧ append_extension (root_path ["out"] "geo.v2" 24) ".pkl"
    = ["out"; "geo.v2_F24.pkl"]
  ∧ fst (export_geo_schema demo_str_float demo_str_tuple demo_hou
           (demo_node [attr_id; attr_mat]) ["out"] "geo.v2" (Some 24)
           (Some "single") empty_fs)
    = fst (export_geo_schema demo_str_float demo_str_tuple demo_hou
             (demo_node [attr_id; attr_mat]) ["out"] "geo.v2" (Some 25)
             (Some "single") empty_fs).
Proof. repeat split; vm_compute; reflexivity. Qed.

(** The ambient frame 24.5 gives frame 24, in the root and in the manifest. *)
Lemma C10_witness :
  fst (export_geo_schema demo_str_float demo_str_tuple demo_hou
         (demo_node [attr_id; attr_mat]) ["out"] "geo" None (Some "ascii")
         empty_fs)
  = Ok ["out"; "geo_F24"]
  ∧ ∃ attrib_meta,
      let meta :=
        build_meta demo_hou (demo_node [attr_id; attr_mat]) "geo" 24 "ascii"
          attrib_meta in
      json_field "frame" meta = Some (JInt 24)
      ∧ ["out"; "geo_F24"] = ["out"; "geo_F24"]
      ∧ fs_files
          (snd (export_geo_schema demo_str_float demo_str_tuple demo_hou
                  (demo_node [attr_id; attr_mat]) ["out"] "geo" None
                  (Some "ascii") empty_fs))
          !! ["out"; "geo_F24"; "metadata.json"]
        = Some (TextFile (_format_json_braces (json_dumps meta))).
Proof.
  assert (fst (export_geo_schema demo_str_float demo_str_tuple demo_hou
                 (demo_node [attr_id; attr_mat]) ["out"] "geo" None
                 (Some "ascii") empty_fs)
          = Ok ["out"; "geo_F24"]) as H by (vm_compute; reflexivity).
  exact (conj H
           (C10_ambient_frame demo_str_float demo_str_tuple demo_hou
              (demo_node [attr_id; attr_mat]) ["out"] "geo" (Some "ascii")
              empty_fs ["out"; "geo_F24"] H)).
Defined.

(** * Part IV: further properties of the code *)

(** ** The run-length encoder *)

Lemma rle_canonical_paired (enc : list Z) : rle_canonical enc → paired enc.
Proof.
  induction enc as [enc IH] using (induction_ltof1 _ (@length Z)).
  unfold ltof in IH. destruct enc as [|v [|r rest]]; simpl.
  - constructor.
  - done.
  - intros (_ & _ & Hrest). constructor. apply IH; [simpl; lia|done].
Qed.

Lemma rle_canonical_grow (l : list Z) (c r : Z) :
  paired l → rle_canonical (l ++ [c; r]) → rle_canonical (l ++ [c; r + 1]).
Proof.
  induction 1 as [|a b l Hl IH]; simpl.
  - intros (? & _ & _). repeat split; try done; lia.
  - intros (Hb & Hne & Hrest). split; [done|]. split; [|by apply IH].
    destruct Hl; done.
Qed.

Lemma rle_canonical_snoc (l : list Z) (c r v : Z) :
  paired l → v ≠ c → rle_canonical (l ++ [c; r]) →
  rle_canonical ((l ++ [c; r]) ++ [v; 1]).
Proof.
  intros Hl Hv. induction Hl as [|a b l Hl IH]; simpl.
  - intros (? & _ & _). repeat split; try done; try lia; congruence.
  - intros (Hb & Hne & Hrest). split; [done|]. split; [|by apply IH].
    destruct Hl; done.
Qed.

Lemma rle_runs_snoc (l : list Z) (c r : Z) :
  paired l → rle_runs (l ++ [c; r]) = rle_runs l + r.
Proof. induction 1 as [|a b l _ IH]; simpl; [lia|]. rewrite IH. lia. Qed.

(** What the loop keeps: [out] with the pending pair is in canonical form,
    its runs add up to the number of values read, and it is at most twice
    as long. *)
Lemma rle_fold_canonical rest : ∀ out current run,
  paired out → rle_canonical (out ++ [current; run]) →
  ∃ out' current' run',
    fold_left rle_step rest (out, current, run) = (out', current', run')
    ∧ paired out'
    ∧ rle_canonical (out' ++ [current'; run'])
    ∧ rle_runs (out' ++ [current'; run'])
      = rle_runs (out ++ [current; run]) + Z.of_nat (length rest)
    ∧ (length (out' ++ [current'; run'])
       ≤ length (out ++ [current; run]) + 2 * length rest)%nat.
Proof.
  induction rest as [|v rest IH]; intros out current run Hp Hc.
  - exists out, current, run. cbn [fold_left length].
    split; [done|]. split; [done|]. split; [done|]. split; lia.
  - cbn [fold_left rle_step]. destruct (Z.eqb_spec v current) as [->|Hne].
    + destruct (IH out current (run + 1) Hp (rle_canonical_grow _ _ _ Hp Hc))
        as (o & c & r & Hf & Hpo & Hco & Hruns & Hlen).
      exists o, c, r. rewrite Hf. repeat split; try done.
      * rewrite Hruns, !rle_runs_snoc by done. cbn [length]. lia.
      * revert Hlen. rewrite !length_app. cbn [length]. lia.
    + destruct (IH (out ++ [current; run]) v 1 (paired_snoc _ _ _ Hp)
                  (rle_canonical_snoc _ _ _ _ Hp Hne Hc))
        as (o & c & r & Hf & Hpo & Hco & Hruns & Hlen).
      exists o, c, r. rewrite Hf. repeat split; try done.
      * rewrite Hruns, (rle_runs_snoc (out ++ [current; run]))
          by by apply paired_snoc.
        cbn [length]. lia.
      * revert Hlen. rewrite !length_app. cbn [length]. lia.
Qed.

(** X1. The encoding is in canonical form: a whole number of
    (value, runLength) pairs, every run length positive, and neighbouring
    pairs with different values -- the runs are maximal. *)
Theorem X1_rle_canonical (values : list Z) :
  rle_canonical (_rle_encode_int values).
Proof.
  destruct values as [|v0 rest]; [done|]. unfold _rle_encode_int.
  destruct (rle_fold_canonical rest [] v0 1) as (o & c & r & -> & _ & Hc & _);
    [constructor|simpl; lia|done].
Qed.

(** X2. The run lengths of the encoding add up to the number of values, the
    encoding holds at most two integers per value, and it is empty for the
    empty list only. *)
Theorem X2_rle_runs_and_size (values : list Z) :
  rle_runs (_rle_encode_int values) = Z.of_nat (length values)
  ∧ (length (_rle_encode_int values) ≤ 2 * length values)%nat
  ∧ (_rle_encode_int values = [] ↔ values = []).
Proof.
  destruct values as [|v0 rest]; [done|]. unfold _rle_encode_int.
  destruct (rle_fold_canonical rest [] v0 1)
    as (o & c & r & -> & _ & _ & Hruns & Hlen); [constructor|simpl; lia|].
  split; [|split].
  - rewrite Hruns. cbn [app rle_runs length]. lia.
  - cbn [app length] in *. lia.
  - split; [|done]. intros H. by destruct o.
Qed.

Lemma rle_fold_replicate (n : nat) (v : Z) (l : list Z) : ∀ out run,
  fold_left rle_step (replicate n v ++ l) (out, v, run)
  = fold_left rle_step l (out, v, run + Z.of_nat n).
Proof.
  induction n as [|n IH]; intros out run.
  - simpl. by rewrite Z.add_0_r.
  - cbn [replicate app fold_left rle_step]. rewrite Z.eqb_refl, IH.
    do 2 f_equal. lia.
Qed.

Lemma rle_fold_decode_canonical (enc : list Z) :
  paired enc → ∀ out v r,
    rle_canonical (v :: r :: enc) →
    ∃ o c k,
      fold_left rle_step (rle_decode enc) (out, v, r) = (o, c, k)
      ∧ o ++ [c; k] = out ++ v :: r :: enc.
Proof.
  induction 1 as [|v' r' rest _ IH]; intros out v r Hc.
  - exists out, v, r. done.
  - destruct Hc as (Hr & Hne & Hc'). pose proof Hc' as (Hr' & _ & _).
    cbn [rle_decode].
    replace (Z.to_nat r') with (S (Z.to_nat r' - 1)) by lia.
    cbn [replicate app fold_left rle_step].
    rewrite (proj2 (Z.eqb_neq v' v)) by congruence.
    rewrite rle_fold_replicate.
    replace (1 + Z.of_nat (Z.to_nat r' - 1)) with r' by lia.
    destruct (IH (out ++ [v; r]) v' r' Hc') as (o & c & k & Hf & Heq).
    exists o, c, k. split; [done|]. rewrite Heq. by rewrite <- (assoc_L (++)).
Qed.

(** X3. The other round trip: encoding the expansion of an encoding in
    canonical form gives that encoding back, so the encoder yields the one
    canonical encoding of each sequence. *)
Theorem X3_rle_encode_decode (enc : list Z) :
  rle_canonical enc → _rle_encode_int (rle_decode enc) = enc.
Proof.
  intros Hc. pose proof (rle_canonical_paired enc Hc) as Hp.
  destruct Hp as [|v r rest Hrest]; [done|].
  pose proof Hc as (Hr & _ & _). cbn [rle_decode].
  replace (Z.to_nat r) with (S (Z.to_nat r - 1)) by lia.
  cbn [replicate app _rle_encode_int]. rewrite rle_fold_replicate.
  replace (1 + Z.of_nat (Z.to_nat r - 1)) with r by lia.
  destruct (rle_fold_decode_canonical rest Hrest [] v r Hc)
    as (o & c & k & -> & Heq).
  exact Heq.
Qed.

(** Three quads, two triangles, one quad. *)
Lemma X3_witness :
  rle_canonical [4; 3; 3; 2; 4; 1]
  ∧ _rle_encode_int (rle_decode [4; 3; 3; 2; 4; 1]) = [4; 3; 3; 2; 4; 1].
Proof.
  assert (rle_canonical [4; 3; 3; 2; 4; 1]) as H
    by (simpl; repeat split; (lia || discriminate)).
  exact (conj H (X3_rle_encode_decode _ H)).
Defined.

Section More.

Context {float : Type}.
Variable str_float : float → string.
Variable str_tuple : list (scalar float) → string.

Implicit Types (elems : list (Elem float)) (fs : FS float).

(** ** The array serializer *)

(** X4. Given an array and a format name it has no branch for,
    [_save_array] fails with UnsupportedFormat and leaves the file system as
    it was; "single", which [export_geo_schema] accepts, is such a name. *)
Theorem X4_save_array_unknown_format (p : path) (a : ndarray float)
    (fmt : string) fs :
  fmt ∉ array_formats →
  _save_array str_float p (Some a) fmt fs = (Err (UnsupportedFormat fmt), fs).
Proof.
  intros Hfmt. unfold _save_array, array_formats in *.
  rewrite !bool_decide_eq_false_2; [done|set_solver..].
Qed.

(** X5. A call of [_save_array] that returns changes no directory and at
    most one file: the one named by [path_base] with the extension of the
    format in place of its suffix.  With [None] for the array it changes
    nothing at all, whatever the format name. *)
Theorem X5_save_array_one_file (p : path) (arr : option (ndarray float))
    (fmt : string) fs fs' :
  _save_array str_float p arr fmt fs = (Ok (), fs') →
  fs_dirs fs' = fs_dirs fs
  ∧ (∀ q, q ≠ with_suffix p (format_extension fmt) →
          fs_files fs' !! q = fs_files fs !! q)
  ∧ (arr = None → fs' = fs)
  ∧ (is_Some arr → is_Some (fs_files fs' !! with_suffix p (format_extension fmt))).
Proof.
  unfold _save_array, format_extension. destruct arr as [a|].
  - destruct (bool_decide (fmt = "ascii")) eqn:Ea.
    + unfold _save_ascii.
      destruct (bool_decide (ndim a = 1%nat));
        [|destruct (bool_decide (ndim a = 2%nat))]; run_io;
        intros [= <-]; cbn; (split; [done|]);
        (split; [intros q Hq; by rewrite lookup_insert_ne|]);
        (split; [done|]); intros _; by rewrite lookup_insert_eq.
    + destruct (bool_decide (fmt = "npy") || bool_decide (fmt = "binary")) eqn:En.
      * apply bool_decide_eq_false in Ea.
        assert (bool_decide (fmt = "pickle") = false) as ->.
        { apply bool_decide_eq_false. intros ->. done. }
        run_io. intros [= <-]. cbn. split; [done|].
        split; [intros q Hq; by rewrite lookup_insert_ne|].
        split; [done|]. intros _. by rewrite lookup_insert_eq.
      * destruct (bool_decide (fmt = "pickle")); run_io; [|done].
        intros [= <-]. cbn. split; [done|].
        split; [intros q Hq; by rewrite lookup_insert_ne|].
        split; [done|]. intros _. by rewrite lookup_insert_eq.
  - intros [= <-]. split; [done|]. split; [done|]. split; [done|].
    intros [? ?]. done.
Qed.

(** ** Array coercion *)




(** X7. When the body of the attribute loop returns, the attribute's
    declared type is Integer, Float or String and the type recorded for it
    in the manifest is "int", "float" or "string": the fallback of
    [_attrib_type_str] to the printed name of another type never reaches
    the manifest. *)
Theorem X7_recorded_type_is_supported (fmt : string) (single : bool) elems
    (folder : path) (st : export_state float) (a : Attrib) fs :
  is_err (fst (export_attrib str_float str_tuple fmt single elems folder st a
                 fs)) = false →
  supported_type (attr_dataType a)
  ∧ _attrib_type_str a ∈ ["int"; "float"; "string"].
Proof.
  intros Hrun. unfold supported_type, _attrib_type_str.
  destruct (attr_dataType a) eqn:Hty.
  - split; [auto|set_solver].
  - split; [auto|set_solver].
  - split; [auto|set_solver].
  - rewrite export_attrib_unsupported in Hrun; [done|].
    rewrite Hty. intros [H|[H|H]]; discriminate H.
Qed.

(** ** Nothing is ever removed *)

Lemma fs_le_refl fs : fs_le fs fs.
Proof. split; [done|auto]. Qed.

Lemma fs_le_trans fs1 fs2 fs3 : fs_le fs1 fs2 → fs_le fs2 fs3 → fs_le fs1 fs3.
Proof. intros [Hd1 Hf1] [Hd2 Hf2]. split; [set_solver|auto]. Qed.

Lemma fs_le_write fs (p : path) (c : content float) : fs_le fs (fs_write fs p c).
Proof. split; [done|]. intros q Hq. by apply fs_write_keeps. Qed.

Lemma fs_le_mkdir fs (p : path) : fs_le fs (fs_mkdir fs p).
Proof. split; [cbn; set_solver|done]. Qed.

Lemma keeps_all_pure {A} (r : result A) : keeps_all (@lift float A r).
Proof. intros fs. apply fs_le_refl. Qed.

Lemma keeps_all_bind {A B} (m : io float A) (k : A → io float B) :
  keeps_all m → (∀ a, keeps_all (k a)) → keeps_all (m ≫= k).
Proof.
  intros Hm Hk fs. specialize (Hm fs). unfold mbind, io_bind.
  destruct (m fs) as [[a|e] fs1]; [|done].
  eapply fs_le_trans; [exact Hm|apply Hk].
Qed.

Lemma keeps_all_for_each {A S} (f : S → A → io float S) (l : list A) :
  (∀ st x, keeps_all (f st x)) → ∀ st, keeps_all (for_each f l st).
Proof.
  intros Hf. induction l as [|x l IH]; intros st.
  - intros fs. apply fs_le_refl.
  - cbn [for_each]. apply keeps_all_bind; [apply Hf|apply IH].
Qed.

Lemma keeps_all_write (p : path) (c : content float) :
  keeps_all (write_file p c).
Proof. intros fs. apply fs_le_write. Qed.

Lemma keeps_all_ensure_dir (p : path) : keeps_all (@_ensure_dir float p).
Proof. intros fs. apply fs_le_mkdir. Qed.

Lemma keeps_all_save_ascii (p : path) (arr : option (ndarray float)) :
  keeps_all (_save_ascii str_float p arr).
Proof.
  unfold _save_ascii. destruct arr as [a|]; [|intros fs; apply fs_le_refl].
  repeat case_bool_decide; apply keeps_all_write.
Qed.

Lemma keeps_all_save_array (p : path) (arr : option (ndarray float))
    (fmt : string) :
  keeps_all (_save_array str_float p arr fmt).
Proof.
  unfold _save_array. destruct arr as [a|]; [|intros fs; apply fs_le_refl].
  destruct (bool_decide (fmt = "ascii")); [apply keeps_all_save_ascii|].
  destruct (_ || _); [apply keeps_all_write|].
  destruct (bool_decide (fmt = "pickle")); [apply keeps_all_write|].
  intros fs. apply fs_le_refl.
Qed.

Lemma keeps_all_export_attrib fmt single elems (folder : path)
    (st : export_state float) (a : Attrib) :
  keeps_all (export_attrib str_float str_tuple fmt single elems folder st a).
Proof.
  destruct st as [so am]. unfold export_attrib.
  apply keeps_all_bind; [apply keeps_all_pure|]. intros [dat kind].
  apply keeps_all_bind; [apply keeps_all_pure|]. intros so'.
  apply keeps_all_bind.
  - destruct single; cbn [negb]; [intros fs; apply fs_le_refl|].
    destruct dat; [apply keeps_all_write|apply keeps_all_save_array].
  - intros _. apply keeps_all_bind; [apply keeps_all_pure|].
    intros am' fs. apply fs_le_refl.
Qed.

Lemma keeps_all_export_topology fmt single (geo : Geometry float)
    (root : path) (so : dict (dict (data float))) :
  keeps_all (export_topology str_float fmt single geo root so).
Proof.
  unfold export_topology.
  do 3 (apply keeps_all_bind; [apply keeps_all_pure|]; intros ?).
  apply keeps_all_bind.
  - destruct single; cbn [negb]; [intros fs; apply fs_le_refl|].
    do 2 (apply keeps_all_bind; [apply keeps_all_save_array|]; intros _).
    apply keeps_all_save_array.
  - intros _ fs. apply fs_le_refl.
Qed.

Lemma keeps_all_write_outputs single (root : path)
    (so : dict (dict (data float))) (meta : json) :
  keeps_all (write_outputs single root so meta).
Proof.
  unfold write_outputs. destruct single;
    (apply keeps_all_bind; [apply keeps_all_write|]);
    intros _ fs; apply fs_le_refl.
Qed.

(** X8. Whatever it is called on and whether it returns or fails,
    [export_geo_schema] removes nothing: every directory that existed is
    still there afterwards, and every path that held a file still holds
    one. *)
Theorem X8_export_removes_nothing (hou : Hou) (node : SopNode float)
    (out_root : path) (name : string) (frame : option Z)
    (format : option string) fs :
  fs_le fs
    (snd (export_geo_schema str_float str_tuple hou node out_root name frame
            format fs)).
Proof.
  revert fs. change (keeps_all (export_geo_schema str_float str_tuple hou node
                                  out_root name frame format)).
  unfold export_geo_schema.
  destruct (negb _); [intros fs; apply fs_le_refl|].
  apply keeps_all_bind.
  - destruct (bool_decide (resolve_format format = "single"));
      [apply keeps_all_ensure_dir|].
    apply keeps_all_for_each. intros _ d. apply keeps_all_ensure_dir.
  - intros _. apply keeps_all_bind.
    + apply keeps_all_for_each. intros st [atype folder]. unfold export_domain.
      apply keeps_all_for_each. intros st' a. apply keeps_all_export_attrib.
    + intros [so am]. apply keeps_all_bind;
        [apply keeps_all_export_topology|].
      intros so'. apply keeps_all_write_outputs.
Qed.

(** ** The single-archive layout *)

Lemma touches_nothing_pure {A} (r : result A) : touches_nothing (@lift float A r).
Proof. done. Qed.

Lemma touches_nothing_bind {A B} (m : io float A) (k : A → io float B) :
  touches_nothing m → (∀ a, touches_nothing (k a)) → touches_nothing (m ≫= k).
Proof.
  intros Hm Hk fs. specialize (Hm fs). unfold mbind, io_bind.
  destruct (m fs) as [[a|e] fs1]; simpl in Hm; subst fs1; [apply Hk|done].
Qed.

Lemma touches_nothing_for_each {A S} (f : S → A → io float S) (l : list A) :
  (∀ st x, touches_nothing (f st x)) → ∀ st, touches_nothing (for_each f l st).
Proof.
  intros Hf. induction l as [|x l IH]; intros st; [done|].
  cbn [for_each]. apply touches_nothing_bind; [apply Hf|apply IH].
Qed.

Lemma touches_nothing_export_attrib fmt elems (folder : path)
    (st : export_state float) (a : Attrib) :
  touches_nothing
    (export_attrib str_float str_tuple fmt true elems folder st a).
Proof.
  destruct st as [so am]. unfold export_attrib.
  apply touches_nothing_bind; [apply touches_nothing_pure|]. intros [dat kind].
  apply touches_nothing_bind; [apply touches_nothing_pure|]. intros so'.
  apply touches_nothing_bind; [done|]. intros _.
  apply touches_nothing_bind; [apply touches_nothing_pure|]. done.
Qed.

Lemma touches_nothing_export_topology fmt (geo : Geometry float) (root : path)
    (so : dict (dict (data float))) :
  touches_nothing (export_topology str_float fmt true geo root so).
Proof.
  unfold export_topology.
  do 3 (apply touches_nothing_bind; [apply touches_nothing_pure|]; intros ?).
  apply touches_nothing_bind; done.
Qed.

Lemma touches_nothing_export_domain fmt (geo : Geometry float)
    (st : export_state float) (d : attribType.t * path) :
  touches_nothing (export_domain str_float str_tuple fmt true geo st d).
Proof.
  destruct d as [atype folder]. unfold export_domain.
  apply touches_nothing_for_each. intros st' a.
  apply touches_nothing_export_attrib.
Qed.

(** X9. In the single-archive layout the export makes the directory
    [out_root] (with its parents) and, when it returns, writes one file, the
    archive it returns; it writes nothing else, makes no domain folder, and
    writes no file at all when it fails. *)
Theorem X9_single_layout_one_file (hou : Hou) (node : SopNode float)
    (out_root : path) (name : string) (frame : option Z)
    (format : option string) fs :
  resolve_format format = "single" →
  match fst (export_geo_schema str_float str_tuple hou node out_root name frame
               format fs) with
  | Ok p =>
      p = with_suffix (root_path out_root name (resolve_frame hou frame)) ".pkl"
      ∧ ∃ single_obj meta,
          snd (export_geo_schema str_float str_tuple hou node out_root name
                 frame format fs)
          = fs_write (fs_mkdir fs out_root) p (PickleObject single_obj meta)
  | Err _ =>
      snd (export_geo_schema str_float str_tuple hou node out_root name frame
             format fs)
      = fs_mkdir fs out_root
  end.
Proof.
  intros Hs.
  destruct (export_geo_schema str_float str_tuple hou node out_root name frame
              format fs) as [r fs'] eqn:Hrun.
  cbn [fst snd]. revert Hrun. unfold export_geo_schema. rewrite Hs.
  rewrite bool_decide_eq_true_2 by (unfold known_formats; set_solver).
  cbn [negb]. rewrite bool_decide_eq_true_2 by done.
  set (root := root_path out_root name (resolve_frame hou frame)).
  rewrite (bind_ok (_ensure_dir out_root) _ fs () (fs_mkdir fs out_root))
    by done.
  set (fs1 := fs_mkdir fs out_root).
  pose proof (touches_nothing_for_each
                (export_domain str_float str_tuple "single" true
                   (node_geometry node)) (domain_dirs root)
                (touches_nothing_export_domain "single" (node_geometry node))
                (empty_domains, empty_domains) fs1) as Hloop.
  unfold mbind at 1, io_bind at 1.
  destruct (for_each _ (domain_dirs root) _ fs1) as [[[so am]|e] fs2];
    simpl in Hloop; subst fs2; [|by intros [= <- <-]].
  pose proof (touches_nothing_export_topology "single" (node_geometry node)
                root so fs1) as Htopo.
  unfold mbind at 1, io_bind at 1.
  destruct (export_topology _ _ _ _ _ _ fs1) as [[so'|e] fs3];
    simpl in Htopo; subst fs3; [|by intros [= <- <-]].
  unfold write_outputs. run_io. intros [= <- <-]. split; [done|]. eauto.
Qed.

(** ** Success on well-formed providers *)




(** ** Format names, again *)

Lemma lower_char_idem (c : ascii) : lower_char (lower_char c) = lower_char c.
Proof. destruct c as [[] [] [] [] [] [] [] []]; vm_compute; reflexivity. Qed.

Lemma lower_idem (s : string) : lower (lower s) = lower s.
Proof.
  induction s as [|c s IH]; [done|]. simpl. by rewrite lower_char_idem, IH.
Qed.

Lemma resolve_format_main (cfg_format : option string) :
  resolve_format (Some (main_format cfg_format)) = resolve_format cfg_format.
Proof.
  destruct cfg_format as [f|]; [|reflexivity].
  unfold main_format, resolve_format. cbv zeta.
  destruct (bool_decide (lower f = "binary")) eqn:Hb; [reflexivity|].
  by rewrite lower_idem, Hb.
Qed.

(** X11. The caller's own normalisation of the format is harmless:
    [export_geo_schema] given the name as [main] prepares it (default "npy",
    lowercased, "binary" turned into "npy") behaves as when given the
    configuration's value itself, because it normalises once more and the
    normalisation is idempotent.  In particular the name is
    case-insensitive. *)
Theorem X11_main_format_harmless (hou : Hou) (node : SopNode float)
    (out_root : path) (name : string) (frame : option Z)
    (cfg_format : option string) fs :
  export_geo_schema str_float str_tuple hou node out_root name frame
    (Some (main_format cfg_format)) fs
  = export_geo_schema str_float str_tuple hou node out_root name frame
      cfg_format fs
  ∧ ∀ f, resolve_format (Some (lower f)) = resolve_format (Some f).
Proof.
  split.
  - unfold export_geo_schema. by rewrite resolve_format_main.
  - intros f. unfold resolve_format. by rewrite lower_idem.
Qed.

(** ** What a per-file export leaves behind *)

Lemma path_in_parents (p : path) : p ≠ [] → p ∈ path_and_parents p.
Proof.
  intros Hne. unfold path_and_parents. apply list_elem_of_In, in_map_iff.
  exists (length p). split; [apply firstn_all|].
  apply in_seq. destruct p; [done|]. simpl. lia.
Qed.

Lemma parent_in_parents (p : path) (s : string) :
  p ≠ [] → p ∈ path_and_parents (path_join p s).
Proof.
  intros Hne. unfold path_and_parents, path_join.
  apply list_elem_of_In, in_map_iff.
  exists (length p). split; [by apply take_app_length|].
  apply in_seq. rewrite length_app. destruct p; [done|]. simpl. lia.
Qed.

Lemma mkdir_makes fs (p d : path) :
  d ∈ path_and_parents p → d ∈ fs_dirs (fs_mkdir fs p).
Proof. intros Hd. cbn. apply elem_of_union_r. by apply elem_of_list_to_set. Qed.

(** After the four [_ensure_dir] calls the root and its four folders exist. *)
Lemma ensure_dirs_made (root : path) fs fs0 :
  root ≠ [] →
  for_each (fun (_ : ()) (d : attribType.t * path) => _ensure_dir (snd d))
    (domain_dirs root) () fs = (Ok (), fs0) →
  Forall (fun d => d ∈ fs_dirs fs0) (root :: map snd (domain_dirs root)).
Proof.
  intros Hne [= <-].
  assert (∀ fs1 fs2 (d : path), fs_le fs1 fs2 → d ∈ fs_dirs fs1 →
                                d ∈ fs_dirs fs2) as Hup.
  { intros fs1 fs2 d [Hd _] Hin. by apply Hd. }
  repeat constructor.
  - do 3 (eapply Hup; [apply fs_le_mkdir|]).
    by apply mkdir_makes, parent_in_parents.
  - do 3 (eapply Hup; [apply fs_le_mkdir|]).
    apply mkdir_makes, path_in_parents. by destruct root.
  - do 2 (eapply Hup; [apply fs_le_mkdir|]).
    apply mkdir_makes, path_in_parents. by destruct root.
  - do 1 (eapply Hup; [apply fs_le_mkdir|]).
    apply mkdir_makes, path_in_parents. by destruct root.
  - apply mkdir_makes, path_in_parents. by destruct root.
Qed.

Lemma save_array_file_exists (p : path) (a : ndarray float) (fmt : string)
    fs fs' :
  _save_array str_float p (Some a) fmt fs = (Ok (), fs') →
  is_Some (fs_files fs' !! with_suffix p (format_extension fmt)).
Proof.
  unfold _save_array, format_extension.
  destruct (bool_decide (fmt = "ascii")) eqn:Ea.
  - unfold _save_ascii.
    destruct (bool_decide (ndim a = 1%nat));
      [|destruct (bool_decide (ndim a = 2%nat))]; run_io;
      intros [= <-]; apply fs_write_there.
  - destruct (bool_decide (fmt = "npy") || bool_decide (fmt = "binary")) eqn:En.
    + apply bool_decide_eq_false in Ea.
      assert (bool_decide (fmt = "pickle") = false) as ->.
      { apply bool_decide_eq_false. intros ->. done. }
      run_io. intros [= <-]. apply fs_write_there.
    + destruct (bool_decide (fmt = "pickle")); run_io; [|done].
      intros [= <-]. apply fs_write_there.
Qed.

(** An attribute whose export returns has its file. *)
Lemma export_attrib_file_exists fmt elems (folder : path)
    (st st' : export_state float) (a : Attrib) fs fs' :
  export_attrib str_float str_tuple fmt false elems folder st a fs
  = (Ok st', fs') →
  is_Some (fs_files fs' !! attrib_file fmt folder a).
Proof.
  destruct st as [so am]. unfold export_attrib.
  intros Hrun.
  apply bind_inv_ok in Hrun as ([dat kind] & fs1 & Harr & Hrun).
  unfold lift in Harr. injection Harr as Harr <-.
  apply bind_inv_ok in Hrun as (so' & fs2 & Hso & Hrun).
  unfold lift in Hso. injection Hso as Hso <-.
  apply bind_inv_ok in Hrun as ([] & fs3 & Hsave & Hrun).
  apply bind_inv_ok in Hrun as (am' & fs4 & Ham & Hrun).
  unfold lift in Ham. injection Ham as Ham <-.
  unfold mret, io_ret in Hrun. injection Hrun as _ <-.
  cbn [negb] in Hsave. unfold attrib_file.
  revert Harr. unfold _export_attrib_array.
  destruct (bool_decide (attr_dataType a = attribData.String)).
  - intros [= <- _]. revert Hsave. run_io. intros [= <-].
    apply fs_write_there.
  - intros Harr.
    assert (∃ arr, dat = DArray arr) as (arr & ->).
    { destruct (_attrib_dtype a) as [dt|e]; [|done].
      destruct (np_asarray _ dt) as [arr|e]; [|done].
      destruct (1 <? attr_size a).
      - destruct (np_reshape arr _ _) as [arr'|e]; [|done].
        injection Harr as <- _. eauto.
      - injection Harr as <- _. eauto. }
    by apply save_array_file_exists in Hsave.
Qed.

Lemma for_each_items_files fmt (geo : Geometry float)
    (items : list (attribType.t * path * Attrib)) :
  ∀ st fs st' fs',
    for_each (export_item str_float str_tuple fmt false geo) items st fs
    = (Ok st', fs') →
    Forall (fun it =>
              is_Some (fs_files fs' !! attrib_file fmt (snd (fst it)) (snd it)))
      items.
Proof.
  induction items as [|it items IH]; intros st fs st' fs' Hrun; [constructor|].
  cbn [for_each] in Hrun.
  apply bind_inv_ok in Hrun as (st1 & fs1 & Hstep & Hrest).
  constructor; [|by eapply IH].
  pose proof (keeps_all_for_each
                (export_item str_float str_tuple fmt false geo) items
                (fun st x => keeps_all_export_attrib _ _ _ _ st _) st1 fs1)
    as [_ Hkeep].
  rewrite Hrest in Hkeep. apply Hkeep.
  by apply export_attrib_file_exists in Hstep.
Qed.

Lemma export_topology_files fmt (geo : Geometry float) (root : path)
    (so so' : dict (dict (data float))) fs fs' :
  export_topology str_float fmt false geo root so fs = (Ok so', fs') →
  Forall (fun n =>
            is_Some (fs_files fs'
                       !! with_suffix (path_join (path_join root "Vertex") n)
                            (format_extension fmt)))
    topology_names.
Proof.
  unfold export_topology. cbv zeta. intros Hrun.
  do 3 (apply bind_inv_ok in Hrun as (? & ? & Hl & Hrun);
        unfold lift in Hl; injection Hl as _ <-).
  apply bind_inv_ok in Hrun as ([] & fs1 & Hsave & Hrun).
  unfold mret, io_ret in Hrun. injection Hrun as _ <-.
  cbn [negb] in Hsave.
  apply bind_inv_ok in Hsave as ([] & fs2 & Hs1 & Hsave).
  apply bind_inv_ok in Hsave as ([] & fs3 & Hs2 & Hs3).
  match type of Hs2 with
  | _save_array _ ?q ?a ?f ?s = _ =>
      pose proof (keeps_all_save_array q a f s) as [_ Hk2]
  end.
  rewrite Hs2 in Hk2.
  match type of Hs3 with
  | _save_array _ ?q ?a ?f ?s = _ =>
      pose proof (keeps_all_save_array q a f s) as [_ Hk3]
  end.
  rewrite Hs3 in Hk3.
  apply save_array_file_exists in Hs1, Hs2, Hs3.
  repeat constructor; auto.
Qed.

Lemma keeps_all_export_domain fmt single (geo : Geometry float)
    (st : export_state float) (d : attribType.t * path) :
  keeps_all (export_domain str_float str_tuple fmt single geo st d).
Proof.
  destruct d as [atype folder]. unfold export_domain.
  apply keeps_all_for_each. intros st' a. apply keeps_all_export_attrib.
Qed.

(** X12. When an export in the per-file layout returns, it returns the
    output root, and the file system holds: the root and its four domain
    folders; a file for every attribute of the provider; the three topology
    files under [Vertex], with the extension of the format; and
    [metadata.json]. *)
Theorem X12_per_file_outputs (hou : Hou) (node : SopNode float)
    (out_root : path) (name : string) (frame : option Z)
    (format : option string) fs (p : path) :
  resolve_format format ≠ "single" →
  fst (export_geo_schema str_float str_tuple hou node out_root name frame
         format fs) = Ok p →
  let root := root_path out_root name (resolve_frame hou frame) in
  let fs' := snd (export_geo_schema str_float str_tuple hou node out_root name
                    frame format fs) in
  p = root
  ∧ Forall (fun d => d ∈ fs_dirs fs') (root :: map snd (domain_dirs root))
  ∧ Forall (fun it =>
              is_Some (fs_files fs'
                         !! attrib_file (resolve_format format) (snd (fst it))
                              (snd it)))
      (ordered_attribs (node_geometry node) root)
  ∧ Forall (fun n =>
              is_Some (fs_files fs'
                         !! with_suffix (path_join (path_join root "Vertex") n)
                              (format_extension (resolve_format format))))
      topology_names
  ∧ is_Some (fs_files fs' !! path_join root "metadata.json").
Proof.
  intros Hns. cbv zeta.
  destruct (export_geo_schema str_float str_tuple hou node out_root name frame
              format fs) as [r fs'] eqn:Hrun.
  cbn [fst snd]. intros ->. revert Hrun. unfold export_geo_schema.
  destruct (bool_decide (resolve_format format ∈ known_formats)); [|done].
  cbn [negb]. rewrite bool_decide_eq_false_2 by done.
  set (root := root_path out_root name (resolve_frame hou frame)).
  set (geo := node_geometry node). intros Hrun.
  apply bind_inv_ok in Hrun as ([] & fs0 & Hdirs & Hrun).
  apply bind_inv_ok in Hrun as ([so am] & fs1 & Hloop & Hrun).
  apply bind_inv_ok in Hrun as (so' & fs2 & Htopo & Hout).
  unfold write_outputs in Hout. revert Hout. run_io. intros [= <- <-].
  pose proof (keeps_all_export_topology (resolve_format format)
                false geo root so fs1) as H12.
  rewrite Htopo in H12. cbn [snd] in H12.
  assert (fs_le fs0 fs1) as H01.
  { pose proof (keeps_all_for_each
                  (export_domain str_float str_tuple (resolve_format format)
                     false geo) (domain_dirs root)
                  (keeps_all_export_domain (resolve_format format) false geo)
                  (empty_domains, empty_domains) fs0) as Hk.
    by rewrite Hloop in Hk. }
  pose proof (fs_le_write fs2 (path_join root "metadata.json")
                (TextFile (_format_json_braces (json_dumps
                   (build_meta hou node name (resolve_frame hou frame)
                      (resolve_format format) am))))) as H2f.
  split; [done|]. split; [|split; [|split]].
  - apply ensure_dirs_made in Hdirs; [|by destruct out_root].
    eapply Forall_impl; [exact Hdirs|]. intros d Hd. cbn [fs_dirs fs_write].
    destruct H01 as [H01 _], H12 as [H12 _]. by apply H12, H01.
  - rewrite for_each_domains_flat in Hloop.
    apply for_each_items_files in Hloop.
    eapply Forall_impl; [exact Hloop|]. intros it Hit.
    destruct H12 as [_ H12], H2f as [_ H2f]. by apply H2f, H12.
  - apply export_topology_files in Htopo.
    eapply Forall_impl; [exact Htopo|]. intros n Hn.
    destruct H2f as [_ H2f]. by apply H2f.
  - apply fs_write_there.
Qed.

(** ** The topology in the archive *)

Lemma dict_get_set {V} (k : string) (v : V) (d : dict V) :
  dict_get k (dict_set k v d) = Some v.
Proof.
  induction d as [|[k' v'] d IH]; simpl.
  - by rewrite decide_True.
  - destruct (decide (k = k')) as [->|Hne]; simpl.
    + by rewrite decide_True.
    + by rewrite decide_False.
Qed.

Lemma dict_get_set_ne {V} (k k' : string) (v : V) (d : dict V) :
  k' ≠ k → dict_get k' (dict_set k v d) = dict_get k' d.
Proof.
  intros Hne. induction d as [|[k0 v0] d IH]; simpl.
  - by rewrite decide_False.
  - destruct (decide (k = k0)) as [->|Hne0]; simpl.
    + by rewrite !decide_False.
    + destruct (decide (k' = k0)); [done|apply IH].
Qed.

Lemma dict_set2_inv {V} (k1 k2 : string) (v : V) (d d' : dict (dict V)) :
  dict_set2 k1 k2 v d = Ok d' →
  ∃ inner, dict_get k1 d = Some inner
           ∧ dict_get k1 d' = Some (dict_set k2 v inner).
Proof.
  unfold dict_set2. destruct (dict_get k1 d) as [inner|]; [|done].
  intros [= <-]. exists inner. split; [done|]. apply dict_get_set.
Qed.

Lemma length_flat_map_sum {A B} (f : A → list B) (l : list A) :
  Z.of_nat (length (flat_map f l))
  = sum_list (map (fun x => Z.of_nat (length (f x))) l).
Proof.
  induction l as [|x l IH]; [done|].
  cbn [flat_map map sum_list foldr]. rewrite length_app.
  unfold sum_list in IH. lia.
Qed.

Lemma rle_decode_encode (values : list Z) :
  rle_decode (_rle_encode_int values) = values.
Proof.
  destruct values as [|v0 rest]; [done|]. unfold _rle_encode_int.
  destruct (rle_fold_decode rest [] v0 1) as (o & c & r & -> & _ & _ & Hd);
    [constructor|lia|].
  by rewrite Hd.
Qed.

(** What [export_topology] leaves in the Vertex map. *)
Lemma export_topology_entries fmt single (geo : Geometry float) (root : path)
    (so so' : dict (dict (data float))) fs fs' :
  export_topology str_float fmt single geo root so fs = (Ok so', fs') →
  ∃ vmap,
    dict_get "Vertex" so' = Some vmap
    ∧ dict_get "pointref" vmap
      = Some (DArray (int32_array
                        (map vertex_point_number
                           (flat_map prim_vertices (geo_prims geo)))))
    ∧ dict_get "vertexcount" vmap
      = Some (DArray (int32_array
                        (map (fun p => Z.of_nat (length (prim_vertices p)))
                           (geo_prims geo))))
    ∧ dict_get "nvertices_rle" vmap
      = Some (DArray (int32_array
                        (_rle_encode_int
                           (map (fun p => Z.of_nat (length (prim_vertices p)))
                              (geo_prims geo))))).
Proof.
  unfold export_topology. cbv zeta. intros Hrun.
  apply bind_inv_ok in Hrun as (so1 & ? & H1 & Hrun).
  unfold lift in H1. injection H1 as H1 <-.
  apply bind_inv_ok in Hrun as (so2 & ? & H2 & Hrun).
  unfold lift in H2. injection H2 as H2 <-.
  apply bind_inv_ok in Hrun as (so3 & ? & H3 & Hrun).
  unfold lift in H3. injection H3 as H3 <-.
  apply bind_inv_ok in Hrun as ([] & fs1 & _ & Hrun).
  unfold mret, io_ret in Hrun. injection Hrun as <- _.
  apply dict_set2_inv in H1 as (v0 & _ & Hv1).
  apply dict_set2_inv in H2 as (v1 & Hv1' & Hv2).
  apply dict_set2_inv in H3 as (v2 & Hv2' & Hv3).
  rewrite Hv1 in Hv1'. injection Hv1' as <-.
  rewrite Hv2 in Hv2'. injection Hv2' as <-.
  eexists. split; [exact Hv3|]. split; [|split].
  - rewrite !dict_get_set_ne by done. apply dict_get_set.
  - rewrite dict_get_set_ne by done. apply dict_get_set.
  - apply dict_get_set.
Qed.

(** X13. The archive of a successful single-archive export holds, in its
    Vertex map, the three topology arrays under the names pointref,
    vertexcount and nvertices_rle -- in place of any real Vertex attribute
    of such a name -- and they agree with one another: pointref has as many
    entries as the vertex counts add up to, vertexcount has one entry per
    primitive, and nvertices_rle expands to vertexcount. *)
Theorem X13_archive_topology (hou : Hou) (node : SopNode float)
    (out_root : path) (name : string) (frame : option Z)
    (format : option string) fs (p : path) :
  resolve_format format = "single" →
  fst (export_geo_schema str_float str_tuple hou node out_root name frame
         format fs) = Ok p →
  ∃ single_obj meta vmap pointref vertexcount nvertices_rle,
    fs_files (snd (export_geo_schema str_float str_tuple hou node out_root
                     name frame format fs)) !! p
    = Some (PickleObject single_obj meta)
    ∧ dict_get "Vertex" single_obj = Some vmap
    ∧ dict_get "pointref" vmap = Some (DArray (int32_array pointref))
    ∧ dict_get "vertexcount" vmap = Some (DArray (int32_array vertexcount))
    ∧ dict_get "nvertices_rle" vmap = Some (DArray (int32_array nvertices_rle))
    ∧ Z.of_nat (length pointref) = sum_list vertexcount
    ∧ length vertexcount = length (geo_prims (node_geometry node))
    ∧ rle_decode nvertices_rle = vertexcount.
Proof.
  intros Hs.
  destruct (export_geo_schema str_float str_tuple hou node out_root name frame
              format fs) as [r fs'] eqn:Hrun.
  cbn [fst snd]. intros ->. revert Hrun. unfold export_geo_schema.
  destruct (bool_decide (resolve_format format ∈ known_formats)); [|done].
  cbn [negb]. rewrite (bool_decide_eq_true_2 _ Hs). intros Hrun.
  apply bind_inv_ok in Hrun as ([] & fs0 & _ & Hrun).
  apply bind_inv_ok in Hrun as ([so am] & fs1 & _ & Hrun).
  apply bind_inv_ok in Hrun as (so' & fs2 & Htopo & Hout).
  unfold write_outputs in Hout. revert Hout. run_io. intros [= <- <-].
  apply export_topology_entries in Htopo as (vmap & Hv & Hpr & Hvc & Hrl).
  eexists so', _, vmap, _, _, _.
  split; [cbn; by rewrite lookup_insert_eq|].
  split; [exact Hv|]. split; [exact Hpr|]. split; [exact Hvc|].
  split; [exact Hrl|]. split; [|split].
  - rewrite length_map. apply length_flat_map_sum.
  - apply length_map.
  - apply rle_decode_encode.
Qed.

(** ** The brace reflow changes white space only *)

Lemma strip_spaces_app (a b : string) :
  strip_spaces (a +:+ b) = strip_spaces a +:+ strip_spaces b.
Proof.
  induction a as [|c a IH]; [done|]. rewrite app_cons_str. simpl.
  destruct (is_space c); [done|]. by rewrite IH.
Qed.

Lemma linebreak_is_space (c : ascii) : is_linebreak c = true → is_space c = true.
Proof. destruct c as [[] [] [] [] [] [] [] []]; vm_compute; done. Qed.

Lemma cat_all_app (l1 l2 : list string) :
  cat_all (l1 ++ l2) = cat_all l1 +:+ cat_all l2.
Proof.
  induction l1 as [|x l1 IH]; [done|]. cbn [app cat_all foldr].
  fold (cat_all (l1 ++ l2)). fold (cat_all l1). by rewrite IH, app_assoc_str.
Qed.

Lemma strip_spaces_splitlines (s : string) :
  cat_all (map strip_spaces (splitlines s)) = strip_spaces s.
Proof.
  induction s as [|c s IH]; [done|]. cbn [splitlines strip_spaces].
  destruct (is_linebreak c) eqn:Hb.
  - rewrite (linebreak_is_space c Hb).
    destruct (_ && _); [exact IH|]. exact IH.
  - destruct (splitlines s) as [|l ls]; cbn [map cat_all foldr] in *.
    + cbn [strip_spaces]. rewrite <- IH.
      destruct (is_space c); [done|]. by rewrite app_nil_r_str.
    + cbn [strip_spaces]. rewrite <- IH.
      destruct (is_space c); [done|]. by rewrite app_cons_str.
Qed.

Lemma strip_spaces_join (l : list string) :
  strip_spaces (join nl l) = cat_all (map strip_spaces l).
Proof.
  induction l as [|x l IH]; [done|]. destruct l as [|y l].
  - cbn. by rewrite app_nil_r_str.
  - change (join nl (x :: y :: l)) with (x +:+ nl +:+ join nl (y :: l)).
    rewrite !strip_spaces_app, IH. reflexivity.
Qed.

Lemma strip_spaces_rstrip (s : string) : strip_spaces (rstrip s) = strip_spaces s.
Proof.
  induction s as [|c s IH]; [done|]. cbn [rstrip strip_spaces].
  destruct (rstrip s) as [|c' r] eqn:Hr.
  - rewrite <- IH. destruct (is_space c) eqn:Hc; simpl; rewrite ?Hc; done.
  - rewrite <- IH. cbn [strip_spaces]. destruct (is_space c); done.
Qed.

Lemma strip_spaces_indent (line : string) :
  strip_spaces (indent_of line) = "".
Proof.
  unfold indent_of, slice_to. induction line as [|c line IH]; [done|].
  cbn [lstrip]. destruct (is_space c) eqn:Hc.
  - pose proof (lstrip_length line).
    replace (String.length (String c line) - String.length (lstrip line))%nat
      with (S (String.length line - String.length (lstrip line)))
      by (cbn [String.length]; lia).
    cbn [String.substring strip_spaces]. by rewrite Hc.
  - by rewrite Nat.sub_diag.
Qed.

Lemma substring_split (n : nat) (s : string) :
  (n ≤ String.length s)%nat →
  s = String.substring 0 n s +:+ String.substring n (String.length s - n) s.
Proof.
  revert s. induction n as [|n IH]; intros s Hn.
  - rewrite Nat.sub_0_r, substring_all. by destruct s.
  - destruct s as [|c s]; [simpl in Hn; lia|].
    cbn [String.substring String.length]. rewrite app_cons_str. f_equal.
    apply IH. simpl in Hn. lia.
Qed.

Lemma endswith_inv (s suf : string) :
  endswith s suf = true → ∃ x, s = x +:+ suf.
Proof.
  unfold endswith. intros [Hlen Heq%bool_decide_eq_true]%andb_true_iff.
  apply Nat.leb_le in Hlen.
  exists (String.substring 0 (String.length s - String.length suf) s).
  rewrite (substring_split (String.length s - String.length suf) s) at 1
    by lia.
  f_equal. rewrite <- Heq at 3. f_equal. lia.
Qed.

Lemma strip_spaces_reflow (line : string) :
  cat_all (map strip_spaces (reflow_line line)) = strip_spaces line.
Proof.
  unfold reflow_line. destruct (endswith (rstrip line) ": {") eqn:He.
  - apply endswith_inv in He as (x & Hx).
    cbn [map cat_all foldr]. rewrite Hx, drop_last_app by (simpl; lia).
    rewrite !strip_spaces_app, strip_spaces_indent.
    rewrite <- (strip_spaces_rstrip line), Hx, strip_spaces_app.
    rewrite app_assoc_str. reflexivity.
  - cbn. apply app_nil_r_str.
Qed.

(** X14. The brace reflow changes white space only: with every white-space
    character taken out (line ends included), the text [_format_json_braces]
    returns is the text it was given.  No character of the manifest is lost
    or added but spaces and line ends. *)
Theorem X14_reflow_changes_spaces_only (text : string) :
  strip_spaces (_format_json_braces text) = strip_spaces text.
Proof.
  unfold _format_json_braces. rewrite brace_fold. cbn [app].
  rewrite strip_spaces_app, strip_spaces_join.
  change (strip_spaces nl) with "". rewrite app_nil_r_str.
  rewrite <- (strip_spaces_splitlines text).
  induction (splitlines text) as [|line lines IH]; [done|].
  cbn [flat_map map]. rewrite map_app, cat_all_app, IH, strip_spaces_reflow.
  reflexivity.
Qed.

(** ** The brace reflow is idempotent *)

Lemma no_break_app (a b : string) :
  no_break (a +:+ b) = no_break a && no_break b.
Proof.
  induction a as [|c a IH]; [done|]. rewrite app_cons_str. simpl.
  by rewrite IH, andb_assoc.
Qed.

Lemma no_break_substring (s : string) : ∀ n m,
  no_break s = true → no_break (String.substring n m s) = true.
Proof.
  induction s as [|c s IH]; intros n m Hs.
  - by destruct n, m.
  - simpl in Hs. apply andb_true_iff in Hs as [Hc Hs].
    destruct n as [|n]; [destruct m as [|m]|]; simpl; [done| |by apply IH].
    rewrite Hc. by apply IH.
Qed.

Lemma no_break_rstrip (s : string) : no_break s = true → no_break (rstrip s) = true.
Proof.
  induction s as [|c s IH]; [done|]. simpl.
  intros [Hc Hs]%andb_true_iff. specialize (IH Hs).
  destruct (rstrip s) as [|c' r].
  - destruct (is_space c); [done|]. simpl. by rewrite Hc.
  - cbn [no_break] in *. by rewrite Hc, IH.
Qed.

Lemma no_break_splitlines (s : string) :
  Forall (fun l => no_break l = true) (splitlines s).
Proof.
  induction s as [|c s IH]; [constructor|]. cbn [splitlines].
  destruct (is_linebreak c) eqn:Hb.
  - destruct (_ && _); [done|]. by constructor.
  - destruct (splitlines s) as [|l ls].
    + constructor; [|constructor]. simpl. by rewrite Hb.
    + apply Forall_cons in IH as [Hl Hls]. constructor; [|done].
      simpl. by rewrite Hb, Hl.
Qed.

Lemma splitlines_line (x t : string) :
  no_break x = true → splitlines (x +:+ nl +:+ t) = x :: splitlines t.
Proof.
  induction x as [|c x IH]; [done|]. rewrite app_cons_str. simpl.
  intros [Hc Hx]%andb_true_iff. apply negb_true_iff in Hc.
  by rewrite Hc, IH.
Qed.

Lemma splitlines_join (ls : list string) :
  ls ≠ [] → Forall (fun l => no_break l = true) ls →
  splitlines (join nl ls +:+ nl) = ls.
Proof.
  induction ls as [|x ls IH]; [done|]. intros _ Hall.
  apply Forall_cons in Hall as [Hx Hls]. destruct ls as [|y ls].
  - change (join nl [x]) with x.
    rewrite <- (app_nil_r_str (x +:+ nl)), app_assoc_str.
    by rewrite splitlines_line.
  - change (join nl (x :: y :: ls)) with (x +:+ nl +:+ join nl (y :: ls)).
    rewrite !app_assoc_str, splitlines_line by done.
    by rewrite IH.
Qed.

Lemma last_char_snoc (a : string) (c : ascii) :
  last_char (a +:+ String c "") = Some c.
Proof.
  induction a as [|d a IH]; [done|]. rewrite app_cons_str.
  cbn [last_char]. rewrite IH. by destruct a.
Qed.

Lemma app_inv_tail_str (a b c : string) : a +:+ c = b +:+ c → a = b.
Proof.
  revert b. induction a as [|x a IH]; intros b H.
  - destruct b as [|y b]; [done|].
    apply (f_equal String.length) in H.
    rewrite app_nil_str, app_cons_str in H. cbn [String.length] in H.
    rewrite length_app_str in H. lia.
  - destruct b as [|y b].
    + apply (f_equal String.length) in H.
      rewrite app_nil_str, app_cons_str in H. cbn [String.length] in H.
      rewrite length_app_str in H. lia.
    + rewrite !app_cons_str in H. injection H as -> H. f_equal. by apply IH.
Qed.

(** A line that was reflowed, or left alone, is not reflowed again. *)
Lemma reflow_line_stable (line l' : string) :
  l' ∈ reflow_line line → reflow_line l' = [l'].
Proof.
  unfold reflow_line at 1. destruct (endswith (rstrip line) ": {") eqn:He.
  - apply endswith_inv in He as (x & Hx). rewrite Hx.
    rewrite drop_last_app by (simpl; lia).
    change (drop_last 2 ": {") with ":".
    intros [->|[->|[]%elem_of_nil]%elem_of_cons]%elem_of_cons;
      unfold reflow_line.
    + rewrite rstrip_app_kept by (intros H; vm_compute in H; discriminate H).
      change (rstrip ":") with ":".
      destruct (endswith (x +:+ ":") ": {") eqn:He'; [|done].
      apply endswith_inv in He' as (y & Hy).
      apply (f_equal last_char) in Hy.
      change ": {" with (": " +:+ String "{" "") in Hy.
      rewrite <- app_assoc_str, !last_char_snoc in Hy. discriminate Hy.
    + rewrite rstrip_app_kept by (intros H; vm_compute in H; discriminate H).
      change (rstrip "{") with "{".
      destruct (endswith (indent_of line +:+ "{") ": {") eqn:He'; [|done].
      apply endswith_inv in He' as (y & Hy).
      change ": {" with (": " +:+ "{") in Hy.
      rewrite <- app_assoc_str in Hy. apply app_inv_tail_str in Hy.
      apply (f_equal strip_spaces) in Hy.
      rewrite strip_spaces_indent, strip_spaces_app in Hy.
      change (strip_spaces ": ") with ":" in Hy.
      by destruct (strip_spaces y).
  - intros ->%list_elem_of_singleton. unfold reflow_line. by rewrite He.
Qed.

Lemma reflow_line_no_break (line : string) :
  no_break line = true →
  Forall (fun l => no_break l = true) (reflow_line line).
Proof.
  intros Hline. unfold reflow_line.
  destruct (endswith (rstrip line) ": {"); [|by repeat constructor].
  repeat constructor.
  - by apply no_break_substring, no_break_rstrip.
  - rewrite no_break_app. apply andb_true_iff. split; [|done].
    by apply no_break_substring.
Qed.

Lemma reflow_lines_stable (lines : list string) :
  flat_map reflow_line (flat_map reflow_line lines)
  = flat_map reflow_line lines.
Proof.
  induction lines as [|line lines IH]; [done|].
  cbn [flat_map]. rewrite flat_map_app, IH. f_equal.
  assert (∀ l, (∀ l', l' ∈ l → reflow_line l' = [l']) →
               flat_map reflow_line l = l) as Hfix.
  { induction l as [|a l IHl]; intros Hl; [done|].
    cbn [flat_map]. rewrite (Hl a) by set_solver.
    cbn [app]. f_equal. apply IHl. intros l' Hin. apply Hl. set_solver. }
  apply Hfix. intros l'. apply reflow_line_stable.
Qed.

(** X15. The brace reflow is idempotent: reflowing a reflowed text gives
    the same text.  A manifest that went through [_format_json_braces] has
    no line left that ends in colon, space, brace. *)
Theorem X15_reflow_idempotent (text : string) :
  _format_json_braces (_format_json_braces text) = _format_json_braces text.
Proof.
  unfold _format_json_braces at 2 3. rewrite !brace_fold. cbn [app].
  destruct (splitlines text) as [|line lines] eqn:Hlines; [reflexivity|].
  pose proof (no_break_splitlines text) as Hnb. rewrite Hlines in Hnb.
  set (out := flat_map reflow_line (line :: lines)).
  assert (out ≠ []) as Hne.
  { subst out. cbn [flat_map]. unfold reflow_line at 1.
    by destruct (endswith _ _). }
  assert (Forall (fun l => no_break l = true) out) as Hout.
  { subst out. apply Forall_flat_map.
    eapply Forall_impl; [exact Hnb|]. intros l. apply reflow_line_no_break. }
  unfold _format_json_braces. rewrite brace_fold. cbn [app].
  rewrite splitlines_join by done.
  subst out. by rewrite reflow_lines_stable.
Qed.

(** ** The attribute index of the manifest *)

Lemma export_attrib_meta fmt single elems (folder : path)
    (so so' : dict (dict (data float))) (am am' : dict (dict json))
    (a : Attrib) fs fs' :
  export_attrib str_float str_tuple fmt single elems folder (so, am) a fs
  = (Ok (so', am'), fs') →
  dict_set2 (path_name folder) (attr_name a) (attrib_descriptor a) am = Ok am'.
Proof.
  unfold export_attrib. intros Hrun.
  apply bind_inv_ok in Hrun as ([dat kind] & fs1 & _ & Hrun).
  apply bind_inv_ok in Hrun as (so1 & fs2 & _ & Hrun).
  apply bind_inv_ok in Hrun as ([] & fs3 & _ & Hrun).
  apply bind_inv_ok in Hrun as (am1 & fs4 & Ham & Hrun).
  unfold lift in Ham. injection Ham as Ham _.
  unfold mret, io_ret in Hrun. injection Hrun as _ <- _. exact Ham.
Qed.

Lemma for_each_items_meta fmt single (geo : Geometry float)
    (items : list (attribType.t * path * Attrib)) :
  ∀ so am fs so' am' fs',
    for_each (export_item str_float str_tuple fmt single geo) items (so, am) fs
    = (Ok (so', am'), fs') →
    am' = fold_left meta_after items am.
Proof.
  induction items as [|it items IH]; intros so am fs so' am' fs' Hrun.
  - by injection Hrun as _ <- _.
  - cbn [for_each] in Hrun.
    apply bind_inv_ok in Hrun as ([so1 am1] & fs1 & Hstep & Hrest).
    apply export_attrib_meta in Hstep. cbn [fold_left].
    unfold meta_after at 2. rewrite Hstep. by eapply IH.
Qed.

Lemma dict_set_set {V} (k : string) (v1 v2 : V) (d : dict V) :
  dict_set k v2 (dict_set k v1 d) = dict_set k v2 d.
Proof.
  induction d as [|[k' v'] d IH]; simpl.
  - by rewrite decide_True.
  - destruct (decide (k = k')) as [->|Hne]; simpl.
    + by rewrite decide_True.
    + rewrite decide_False by done. by rewrite IH.
Qed.

Lemma dict_set_same {V} (k : string) (v : V) (d : dict V) :
  dict_get k d = Some v → dict_set k v d = d.
Proof.
  induction d as [|[k' v'] d IH]; simpl; [done|].
  destruct (decide (k = k')) as [->|Hne]; [by intros [= ->]|].
  intros H. by rewrite IH.
Qed.

Lemma dict_set_fresh {V} (k : string) (v : V) (d : dict V) :
  k ∉ keys d → dict_set k v d = d ++ [(k, v)].
Proof.
  induction d as [|[k' v'] d IH]; simpl; [done|].
  intros Hk. apply not_elem_of_cons in Hk as [Hne Hk].
  rewrite decide_False by done. by rewrite IH.
Qed.

(** The attributes of one domain fill the map of that domain, in order. *)
Lemma fold_meta_domain (t : attribType.t) (root : path) (D : string)
    (attrs : list Attrib) :
  ∀ (am : dict (dict json)) (inner : dict json),
    dict_get D am = Some inner →
    fold_left meta_after (map (fun a => ((t, path_join root D), a)) attrs) am
    = dict_set D
        (fold_left (fun m a => dict_set (attr_name a) (attrib_descriptor a) m)
           attrs inner) am.
Proof.
  induction attrs as [|a attrs IH]; intros am inner Hget.
  - cbn [map fold_left]. by rewrite dict_set_same.
  - cbn [map fold_left]. unfold meta_after at 2, dict_set2. cbn [fst snd].
    rewrite path_name_join, Hget.
    rewrite (IH _ (dict_set (attr_name a) (attrib_descriptor a) inner))
      by apply dict_get_set.
    by rewrite dict_set_set.
Qed.

Lemma fold_dict_set_fresh (attrs : list Attrib) : ∀ m : dict json,
  NoDup (keys m ++ map attr_name attrs) →
  fold_left (fun m a => dict_set (attr_name a) (attrib_descriptor a) m) attrs m
  = m ++ map (fun a => (attr_name a, attrib_descriptor a)) attrs.
Proof.
  induction attrs as [|a attrs IH]; intros m Hnd.
  - cbn. by rewrite app_nil_r.
  - cbn [fold_left map] in *.
    apply NoDup_app in Hnd as (Hm & Hdis & Ha).
    apply NoDup_cons in Ha as [Ha Hattrs].
    rewrite dict_set_fresh by (intros Hin; apply (Hdis _ Hin), elem_of_cons; by left).
    rewrite IH.
    + by rewrite <- (assoc_L (++)).
    + unfold keys. rewrite map_app. cbn [map fst].
      rewrite <- (assoc_L (++)). cbn [app].
      apply NoDup_app. split; [done|]. split; [|by apply NoDup_cons].
      intros x Hx. by apply Hdis.
Qed.

(** The index after the loops, in closed form. *)
Lemma fold_meta_all (geo : Geometry float) (root : path) :
  (∀ t, NoDup (map attr_name (_get_attribs geo t))) →
  fold_left meta_after (ordered_attribs geo root) empty_domains
  = manifest_attribs geo.
Proof.
  intros Hnd. unfold ordered_attribs, domain_dirs. cbn [flat_map fst].
  rewrite app_nil_r, !fold_left_app.
  rewrite (fold_meta_domain _ _ "Point" _ _ []) by reflexivity.
  rewrite (fold_meta_domain _ _ "Vertex" _ _ []) by reflexivity.
  rewrite (fold_meta_domain _ _ "Primitive" _ _ []) by reflexivity.
  rewrite (fold_meta_domain _ _ "Detail" _ _ []) by reflexivity.
  rewrite !fold_dict_set_fresh by (cbn [keys map app]; apply Hnd).
  reflexivity.
Qed.

(** X16. When every domain declares its attributes under distinct names, the
    attribute index of the manifest of a successful export is fixed by the
    declarations alone: it has the four domains in the order Point, Vertex,
    Primitive, Detail, each with exactly the declared attributes in declared
    order, with their type and size.  The three topology arrays are not in
    the index.  The manifest is the archive's metadata in the single layout
    and the reflowed text of metadata.json otherwise. *)
Theorem X16_manifest_index (hou : Hou) (node : SopNode float)
    (out_root : path) (name : string) (frame : option Z)
    (format : option string) fs (p : path) :
  (∀ t, NoDup (map attr_name (_get_attribs (node_geometry node) t))) →
  fst (export_geo_schema str_float str_tuple hou node out_root name frame
         format fs) = Ok p →
  let meta :=
    build_meta hou node name (resolve_frame hou frame) (resolve_format format)
      (manifest_attribs (node_geometry node)) in
  let fs' := snd (export_geo_schema str_float str_tuple hou node out_root name
                    frame format fs) in
  if bool_decide (resolve_format format = "single")
  then ∃ single_obj, fs_files fs' !! p = Some (PickleObject single_obj meta)
  else fs_files fs' !! path_join p "metadata.json"
       = Some (TextFile (_format_json_braces (json_dumps meta))).
Proof.
  intros Hnd. cbv zeta.
  destruct (export_geo_schema str_float str_tuple hou node out_root name frame
              format fs) as [r fs'] eqn:Hrun.
  cbn [fst snd]. intros ->. revert Hrun. unfold export_geo_schema.
  destruct (bool_decide (resolve_format format ∈ known_formats)); [|done].
  cbn [negb]. intros Hrun.
  apply bind_inv_ok in Hrun as ([] & fs0 & _ & Hrun).
  apply bind_inv_ok in Hrun as ([so am] & fs1 & Hloop & Hrun).
  apply bind_inv_ok in Hrun as (so' & fs2 & _ & Hout).
  rewrite for_each_domains_flat in Hloop.
  apply for_each_items_meta in Hloop.
  fold (ordered_attribs (node_geometry node)
          (root_path out_root name (resolve_frame hou frame))) in Hloop.
  rewrite fold_meta_all in Hloop by done. subst am.
  unfold write_outputs in Hout.
  destruct (bool_decide (resolve_format format = "single"));
    revert Hout; run_io; intros [= <- <-].
  - exists so'. cbn. by rewrite lookup_insert_eq.
  - cbn. by rewrite lookup_insert_eq.
Qed.

(** ** Every file goes into a directory that was made *)

















End More.

(** The name "single" has no branch in the array serializer. *)
Lemma X4_witness :
  ("single" ∉ array_formats)
  ∧ _save_array demo_str_float ["out"; "Point"; "P"] (Some rank0_array)
      "single" empty_fs
    = (Err (UnsupportedFormat "single"), empty_fs).
Proof.
  assert ("single" ∉ array_formats) as H by by_computation.
  exact (conj H (X4_save_array_unknown_format demo_str_float
                   ["out"; "Point"; "P"] rank0_array "single" empty_fs H)).
Defined.

(** An array of two integers saved as "npy". *)
Lemma X5_witness :
  _save_array demo_str_float ["out"; "Vertex"; "pointref"]
    (Some (int32_array [0; 1])) "npy" empty_fs
  = (Ok (), fs_write empty_fs ["out"; "Vertex"; "pointref.npy"]
              (NpyFile (int32_array [0; 1])))
  ∧ fs_dirs (fs_write empty_fs ["out"; "Vertex"; "pointref.npy"]
               (NpyFile (int32_array [0; 1]))) = fs_dirs empty_fs
  ∧ (∀ q, q ≠ ["out"; "Vertex"; "pointref.npy"] →
          fs_files (fs_write empty_fs ["out"; "Vertex"; "pointref.npy"]
                      (NpyFile (int32_array [0; 1]))) !! q
          = fs_files empty_fs !! q).
Proof.
  assert (_save_array demo_str_float ["out"; "Vertex"; "pointref"]
            (Some (int32_array [0; 1])) "npy" empty_fs
          = (Ok (), fs_write empty_fs ["out"; "Vertex"; "pointref.npy"]
                      (NpyFile (int32_array [0; 1])))) as H by reflexivity.
  pose proof (X5_save_array_one_file demo_str_float _ _ _ _ _ H)
    as (H1 & H2 & _).
  exact (conj H (conj H1 H2)).
Defined.


(** The attribute [id] of the quad, in the single-archive layout. *)
Lemma X7_witness :
  is_err (fst (export_attrib demo_str_float demo_str_tuple "single" true
                 [prim_attribValue demo_quad] ["out"; "geo_F24"; "Primitive"]
                 (empty_domains, empty_domains) attr_id empty_fs)) = false
  ∧ supported_type (attr_dataType attr_id)
  ∧ _attrib_type_str attr_id ∈ ["int"; "float"; "string"].
Proof.
  assert (is_err (fst (export_attrib demo_str_float demo_str_tuple "single"
                         true [prim_attribValue demo_quad]
                         ["out"; "geo_F24"; "Primitive"]
                         (empty_domains, empty_domains) attr_id empty_fs))
          = false) as H by (vm_compute; reflexivity).
  exact (conj H (X7_recorded_type_is_supported demo_str_float demo_str_tuple
                   _ _ _ _ _ _ _ H)).
Defined.

(** The small scene, with the format given as "Single". *)
Lemma X9_witness :
  resolve_format (Some "Single") = "single"
  ∧ match fst (export_geo_schema demo_str_float demo_str_tuple demo_hou
                 (demo_node [attr_id; attr_mat]) ["out"] "geo" (Some 3)
                 (Some "Single") empty_fs) with
    | Ok p =>
        p = with_suffix (root_path ["out"] "geo" (resolve_frame demo_hou (Some 3)))
              ".pkl"
        ∧ ∃ single_obj meta,
            snd (export_geo_schema demo_str_float demo_str_tuple demo_hou
                   (demo_node [attr_id; attr_mat]) ["out"] "geo" (Some 3)
                   (Some "Single") empty_fs)
            = fs_write (fs_mkdir empty_fs ["out"]) p
                (PickleObject single_obj meta)
    | Err _ =>
        snd (export_geo_schema demo_str_float demo_str_tuple demo_hou
               (demo_node [attr_id; attr_mat]) ["out"] "geo" (Some 3)
               (Some "Single") empty_fs)
        = fs_mkdir empty_fs ["out"]
    end.
Proof.
  assert (resolve_format (Some "Single") = "single") as H by reflexivity.
  exact (conj H (X9_single_layout_one_file demo_str_float demo_str_tuple
                   demo_hou (demo_node [attr_id; attr_mat]) ["out"] "geo"
                   (Some 3) (Some "Single") empty_fs H)).
Defined.



(** The small scene in the format "ascii". *)
Lemma X12_witness :
  resolve_format (Some "ascii") ≠ "single"
  ∧ fst (export_geo_schema demo_str_float demo_str_tuple demo_hou
           (demo_node [attr_id; attr_mat]) ["out"] "geo" None (Some "ascii")
           empty_fs) = Ok ["out"; "geo_F24"]
  ∧ is_Some (fs_files
               (snd (export_geo_schema demo_str_float demo_str_tuple demo_hou
                       (demo_node [attr_id; attr_mat]) ["out"] "geo" None
                       (Some "ascii") empty_fs))
               !! ["out"; "geo_F24"; "metadata.json"]).
Proof.
  assert (resolve_format (Some "ascii") ≠ "single") as H1
    by (intros H; vm_compute in H; discriminate H).
  assert (fst (export_geo_schema demo_str_float demo_str_tuple demo_hou
                 (demo_node [attr_id; attr_mat]) ["out"] "geo" None
                 (Some "ascii") empty_fs) = Ok ["out"; "geo_F24"]) as H2
    by (vm_compute; reflexivity).
  pose proof (X12_per_file_outputs demo_str_float demo_str_tuple demo_hou
                (demo_node [attr_id; attr_mat]) ["out"] "geo" None
                (Some "ascii") empty_fs ["out"; "geo_F24"] H1 H2)
    as (_ & _ & _ & _ & H).
  exact (conj H1 (conj H2 H)).
Defined.

(** The small scene: four vertices on one quad. *)
Lemma X13_witness :
  resolve_format (Some "single") = "single"
  ∧ fst (export_geo_schema demo_str_float demo_str_tuple demo_hou
           (demo_node [attr_id; attr_mat]) ["out"] "geo" None (Some "single")
           empty_fs) = Ok ["out"; "geo_F24.pkl"]
  ∧ ∃ single_obj meta vmap pointref vertexcount nvertices_rle,
      fs_files (snd (export_geo_schema demo_str_float demo_str_tuple demo_hou
                       (demo_node [attr_id; attr_mat]) ["out"] "geo" None
                       (Some "single") empty_fs))
        !! ["out"; "geo_F24.pkl"]
      = Some (PickleObject single_obj meta)
      ∧ dict_get "Vertex" single_obj = Some vmap
      ∧ dict_get "pointref" vmap = Some (DArray (int32_array pointref))
      ∧ dict_get "vertexcount" vmap = Some (DArray (int32_array vertexcount))
      ∧ dict_get "nvertices_rle" vmap
        = Some (DArray (int32_array nvertices_rle))
      ∧ Z.of_nat (length pointref) = sum_list vertexcount
      ∧ length vertexcount
        = length (geo_prims (node_geometry (demo_node [attr_id; attr_mat])))
      ∧ rle_decode nvertices_rle = vertexcount.
Proof.
  assert (resolve_format (Some "single") = "single") as H1 by reflexivity.
  assert (fst (export_geo_schema demo_str_float demo_str_tuple demo_hou
                 (demo_node [attr_id; attr_mat]) ["out"] "geo" None
                 (Some "single") empty_fs) = Ok ["out"; "geo_F24.pkl"]) as H2
    by (vm_compute; reflexivity).
  exact (conj H1 (conj H2
           (X13_archive_topology demo_str_float demo_str_tuple demo_hou
              (demo_node [attr_id; attr_mat]) ["out"] "geo" None
              (Some "single") empty_fs ["out"; "geo_F24.pkl"] H1 H2))).
Defined.

(** The small scene in the text layout: the manifest is the one computed
    from the declarations. *)
Lemma X16_witness :
  (∀ t, NoDup (map attr_name
                 (_get_attribs (node_geometry (demo_node [attr_id; attr_mat]))
                    t)))
  ∧ fst (export_geo_schema demo_str_float demo_str_tuple demo_hou
           (demo_node [attr_id; attr_mat]) ["out"] "geo" None (Some "ascii")
           empty_fs) = Ok ["out"; "geo_F24"]
  ∧ fs_files
      (snd (export_geo_schema demo_str_float demo_str_tuple demo_hou
              (demo_node [attr_id; attr_mat]) ["out"] "geo" None
              (Some "ascii") empty_fs))
      !! ["out"; "geo_F24"; "metadata.json"]
    = Some (TextFile
              (_format_json_braces
                 (json_dumps
                    (build_meta demo_hou (demo_node [attr_id; attr_mat]) "geo"
                       24 "ascii"
                       (manifest_attribs
                          (node_geometry (demo_node [attr_id; attr_mat]))))))).
Proof.
  assert (∀ t, NoDup (map attr_name
                        (_get_attribs
                           (node_geometry (demo_node [attr_id; attr_mat])) t)))
    as H1 by (intros []; by_computation).
  assert (fst (export_geo_schema demo_str_float demo_str_tuple demo_hou
                 (demo_node [attr_id; attr_mat]) ["out"] "geo" None
                 (Some "ascii") empty_fs) = Ok ["out"; "geo_F24"]) as H2
    by (vm_compute; reflexivity).
  pose proof (X16_manifest_index demo_str_float demo_str_tuple demo_hou
                (demo_node [attr_id; attr_mat]) ["out"] "geo" None
                (Some "ascii") empty_fs ["out"; "geo_F24"] H1 H2) as H.
  exact (conj H1 (conj H2 H)).
Defined.
